(** * A shallow embedding of [clickhouse_driver/connect.py]

    The module is a DB-API 2.0 adapter: a [Connection] that hands out
    [Cursor]s, each bound to an underlying client.  The embedding follows
    the Python text method by method.  Python exceptions are modelled by
    a state-and-exception monad in which a raise keeps every mutation made
    before it; dictionaries are stdpp finite maps; the settings
    dictionary, which the caller and the cursor share by reference, lives
    in an explicit store. *)

From Stdlib Require Import ZArith String Ascii List.
From stdpp Require Import base option list strings gmap fin_maps.

Local Open Scope string_scope.
Local Open Scope Z_scope.

(** ** Python values and exceptions *)

(** The exceptions that can reach a caller of this module.  [Error] and
    [OperationalError] are the adapter's own classes (lines 13 and 33);
    [DriverError] is [clickhouse_driver.errors.Error] with its subclasses,
    the single native error type of the client; the others are built-in. *)
Inductive Exc : Type :=
  | Error (msg : string)
  | OperationalError (orig : Exc)
  | DriverError (detail : string)
  | ValueError
  | TypeError
  | AttributeError
  | StopIteration.

(** The fragment of Python data the adapter touches. *)
#[warnings="-register-all"]
Inductive PyVal : Type :=
  | VNone
  | VInt (z : Z)
  | VStr (s : string)
  | VTuple (items : list PyVal)
  | VList (items : list PyVal).

(** Python truthiness, as used by [not x], [x or y] and [if x]. *)
Definition truthy (v : PyVal) : bool :=
  match v with
  | VNone => false
  | VInt z => negb (Z.eqb z 0)
  | VStr s => negb (String.eqb s "")
  | VTuple l | VList l => match l with [] => false | _ => true end
  end.

Inductive Result (A : Type) : Type :=
  | Ok (a : A)
  | Raise (e : Exc).
Arguments Ok {A} a.
Arguments Raise {A} e.

(** A lazy sequence (generator), such as [execute_iter] returns: the
    values it will still yield, and how it ends, by stopping or, when
    the read behind it fails, by raising. *)
Inductive IterEnd : Type :=
  | EndStop
  | EndRaise (e : Exc).

Record Iter : Type := mkIter { pending : list PyVal; ending : IterEnd }.

Definition exhausted : Iter := mkIter [] EndStop.

(** An object held in a cursor field: a plain value or a live iterator. *)
Inductive Obj : Type :=
  | OVal (v : PyVal)
  | OIter (it : Iter).

(** A generator object is always true. *)
Definition obj_truthy (o : Obj) : bool :=
  match o with
  | OVal v => truthy v
  | OIter _ => true
  end.

(** ** The state-and-exception monad *)

Definition M (S A : Type) : Type := S → Result A * S.

Definition ret {S A} (a : A) : M S A := λ s, (Ok a, s).
Definition bind {S A B} (m : M S A) (k : A → M S B) : M S B :=
  λ s, match m s with
       | (Ok a, s') => k a s'
       | (Raise e, s') => (Raise e, s')
       end.
Definition raise {S A} (e : Exc) : M S A := λ s, (Raise e, s).
Definition get {S} : M S S := λ s, (Ok s, s).
Definition gets {S A} (f : S → A) : M S A := λ s, (Ok (f s), s).
Definition modify {S} (f : S → S) : M S unit := λ s, (Ok tt, f s).
Definition lift_result {S A} (r : Result A) : M S A := λ s, (r, s).

(** [try: m except DriverError as orig: h orig]; any other exception
    propagates. *)
Definition try_except_DriverError {S A}
    (m : M S A) (h : Exc → M S A) : M S A :=
  λ s, match m s with
       | (Raise (DriverError d), s') => h (DriverError d) s'
       | r => r
       end.

#[global] Instance M_ret {S} : MRet (M S) := λ A, @ret S A.
#[global] Instance M_bind {S} : MBind (M S) := λ A B k m, @bind S A B m k.

(** ** Built-in operations of Python used by the module *)

Definition chars (s : string) : list PyVal :=
  map (λ c, VStr (String c EmptyString)) (list_ascii_of_string s).

(** [iter(v)] drained to a list, for the values that are iterable. *)
Definition py_iter (v : PyVal) : Result (list PyVal) :=
  match v with
  | VStr s => Ok (chars s)
  | VTuple l | VList l => Ok l
  | VNone | VInt _ => Raise TypeError
  end.

(** [a, b = v]: exactly two items, else [ValueError]. *)
Definition unpack2 (v : PyVal) : Result (PyVal * PyVal) :=
  match py_iter v with
  | Ok [a; b] => Ok (a, b)
  | Ok _ => Raise ValueError
  | Raise e => Raise e
  end.

(** [l[:size]] and [l[size:]] on a sequence of length [length l]; a
    negative index counts from the end and is clipped at 0. *)
Definition slice_stop (n : nat) (size : Z) : nat :=
  if Z.ltb size 0 then Z.to_nat (Z.of_nat n + size) else Z.to_nat size.

Definition slice_to {A} (l : list A) (size : Z) : list A :=
  take (slice_stop (length l) size) l.
Definition slice_from {A} (l : list A) (size : Z) : list A :=
  drop (slice_stop (length l) size) l.

(** [zip] applied to the unpacked rows [xs]: their transpose, cut at the
    shortest row. *)
Fixpoint zip_star_n (n : nat) (xss : list (list PyVal)) : list PyVal :=
  match n with
  | O => []
  | S n' =>
      VTuple (map (λ xs, hd VNone xs) xss)
        :: zip_star_n n' (map (λ xs, tl xs) xss)
  end.

Definition min_length (xss : list (list PyVal)) : nat :=
  match xss with
  | [] => O
  | xs :: rest => fold_right (λ ys n, Nat.min (length ys) n) (length xs) rest
  end.

Definition zip_star (xss : list (list PyVal)) : list PyVal :=
  zip_star_n (min_length xss) xss.

Fixpoint mapR {A B} (f : A → Result B) (l : list A) : Result (list B) :=
  match l with
  | [] => Ok []
  | x :: rest =>
      match f x with
      | Raise e => Raise e
      | Ok y => match mapR f rest with
                | Raise e => Raise e
                | Ok ys => Ok (y :: ys)
                end
      end
  end.

(** [next(o)] without a default: the value or the exception, and the
    object afterwards.  A generator that has raised is finished. *)
Definition next_obj (o : Obj) : Result PyVal * Obj :=
  match o with
  | OIter (mkIter (x :: rest) e) => (Ok x, OIter (mkIter rest e))
  | OIter (mkIter [] EndStop) => (Raise StopIteration, o)
  | OIter (mkIter [] (EndRaise e)) => (Raise e, OIter exhausted)
  | OVal _ => (Raise TypeError, o)
  end.

(** [a, b = o] for a response object; a generator is pulled until it has
    given two items and then once more. *)
Definition unpack2_obj (o : Obj) : Result (PyVal * PyVal) :=
  match o with
  | OVal v => unpack2 v
  | OIter (mkIter [a; b] EndStop) => Ok (a, b)
  | OIter (mkIter (_ :: _ :: _ :: _) _) => Raise ValueError
  | OIter (mkIter _ EndStop) => Raise ValueError
  | OIter (mkIter _ (EndRaise e)) => Raise e
  end.

(** [sys.maxsize], the largest size of a container: [2^63 - 1] on a
    64-bit build of the interpreter. *)
Definition sys_maxsize : Z := 2 ^ 63 - 1.

(** [islice(o, size)] accepts a stop between 0 and [sys.maxsize] and
    raises [ValueError] for any other integer, before looking at [o]. *)
Definition islice_stop_ok (size : Z) : bool :=
  Z.leb 0 size && Z.leb size sys_maxsize.

(** [list(islice(o, size))] for a stop that is accepted: the list, or
    the exception met on the way, and the object afterwards.  Over a
    plain sequence [islice] works on a fresh iterator and leaves the
    sequence alone. *)
Definition islice_list (o : Obj) (n : nat) : Result PyVal * Obj :=
  match o with
  | OIter (mkIter l e) =>
      if decide (n ≤ length l)%nat
      then (Ok (VList (take n l)), OIter (mkIter (drop n l) e))
      else match e with
           | EndStop => (Ok (VList l), OIter exhausted)
           | EndRaise x => (Raise x, OIter exhausted)
           end
  | OVal v =>
      match py_iter v with
      | Ok l => (Ok (VList (take n l)), o)
      | Raise x => (Raise x, o)
      end
  end.

(** [list(o)]. *)
Definition list_obj (o : Obj) : Result PyVal * Obj :=
  match o with
  | OIter (mkIter l EndStop) => (Ok (VList l), OIter exhausted)
  | OIter (mkIter l (EndRaise x)) => (Raise x, OIter exhausted)
  | OVal v =>
      match py_iter v with
      | Ok l => (Ok (VList l), o)
      | Raise x => (Raise x, o)
      end
  end.

(** ** The underlying client *)

Inductive EntryPoint : Type := EExecute | EExecuteIter.

(** One element of the [external_tables] list handed to the client: the
    dictionary with keys [name], [structure] and [data]. *)
Record ExtTable : Type := mkExtTable {
  name : PyVal;
  structure : PyVal;
  data : PyVal
}.

(** What the client receives in one call of [execute] or [execute_iter].
    [settings] is the content of the settings dictionary at that moment. *)
Record Call : Type := mkCall {
  entry : EntryPoint;
  operation : string;
  params : PyVal;
  with_column_types : option bool;
  settings : option (gmap string PyVal);
  external_tables : option (list ExtTable);
  types_check : bool
}.

(** Modelled from the spec: the underlying client
    ([clickhouse_driver.client.Client], not part of this file).  Its
    [execute] and [execute_iter] return a response or raise, the native
    error on any failure of its own; what they answer to a call is left
    open, as a [Server] over which the statements quantify. *)
Definition Server : Type := Call → Result Obj.

Inductive ClientConfig : Type :=
  | FromUrl (dsn : string)
  | FromParams (host user password database : option string)
               (kwargs : gmap string PyVal).

(** Modelled from the spec: the client object, reduced to what the
    adapter can do to it.  It remembers how it was built, whether and
    how many times [disconnect()] was called on it, and every
    [execute] or [execute_iter] call it received, oldest first. *)
Record Client : Type := mkClient {
  config : ClientConfig;
  disconnected : bool;
  disconnect_calls : nat;
  calls : list Call
}.

(** Modelled from the spec: [client.disconnect()], which returns.  What
    a lazy sequence obtained earlier from this client does once the
    client is disconnected is the client's own behaviour and is not
    modelled; the statements about fetching after [close] are therefore
    about rows that are already materialized. *)
Definition Client_disconnect (c : Client) : Client :=
  mkClient (config c) true (S (disconnect_calls c)) (calls c).

Definition Client_record (k : Call) (c : Client) : Client :=
  mkClient (config c) (disconnected c) (disconnect_calls c)
    (calls c ++ [k])%list.

(** ** Cursor *)

Inductive States : Type := NONE | RUNNING | FINISHED | CURSOR_CLOSED.

#[global] Instance States_eq_dec : EqDecision States.
Proof. solve_decision. Defined.

(** The instance attributes of a [Cursor].  [_settings] is a reference
    into the store of dictionaries (or [None]); [_external_tables] is a
    dictionary the cursor creates and owns. *)
Record Cursor : Type := mkCursor {
  _client : Client;
  _state : States;
  _columns : PyVal;
  _types : PyVal;
  _rows : Obj;
  _rowcount : Obj;
  _stream_results : bool;
  _max_row_buffer : Z;
  _settings : option positive;
  _external_tables : gmap string (PyVal * PyVal);
  _types_check : bool;
  arraysize : Z
}.

(** Attribute assignment [self.f = x], one function per attribute. *)
Definition set_client (x : Client) (c : Cursor) : Cursor :=
  mkCursor x (_state c) (_columns c) (_types c) (_rows c) (_rowcount c)
    (_stream_results c) (_max_row_buffer c) (_settings c)
    (_external_tables c) (_types_check c) (arraysize c).
Definition set_state (x : States) (c : Cursor) : Cursor :=
  mkCursor (_client c) x (_columns c) (_types c) (_rows c) (_rowcount c)
    (_stream_results c) (_max_row_buffer c) (_settings c)
    (_external_tables c) (_types_check c) (arraysize c).
Definition set_columns (x : PyVal) (c : Cursor) : Cursor :=
  mkCursor (_client c) (_state c) x (_types c) (_rows c) (_rowcount c)
    (_stream_results c) (_max_row_buffer c) (_settings c)
    (_external_tables c) (_types_check c) (arraysize c).
Definition set_types (x : PyVal) (c : Cursor) : Cursor :=
  mkCursor (_client c) (_state c) (_columns c) x (_rows c) (_rowcount c)
    (_stream_results c) (_max_row_buffer c) (_settings c)
    (_external_tables c) (_types_check c) (arraysize c).
Definition set_rows (x : Obj) (c : Cursor) : Cursor :=
  mkCursor (_client c) (_state c) (_columns c) (_types c) x (_rowcount c)
    (_stream_results c) (_max_row_buffer c) (_settings c)
    (_external_tables c) (_types_check c) (arraysize c).
Definition set_rowcount (x : Obj) (c : Cursor) : Cursor :=
  mkCursor (_client c) (_state c) (_columns c) (_types c) (_rows c) x
    (_stream_results c) (_max_row_buffer c) (_settings c)
    (_external_tables c) (_types_check c) (arraysize c).
Definition set_stream (x : bool) (c : Cursor) : Cursor :=
  mkCursor (_client c) (_state c) (_columns c) (_types c) (_rows c)
    (_rowcount c) x (_max_row_buffer c) (_settings c)
    (_external_tables c) (_types_check c) (arraysize c).
Definition set_max_row_buffer (x : Z) (c : Cursor) : Cursor :=
  mkCursor (_client c) (_state c) (_columns c) (_types c) (_rows c)
    (_rowcount c) (_stream_results c) x (_settings c)
    (_external_tables c) (_types_check c) (arraysize c).
Definition set_settings_ref (x : option positive) (c : Cursor) : Cursor :=
  mkCursor (_client c) (_state c) (_columns c) (_types c) (_rows c)
    (_rowcount c) (_stream_results c) (_max_row_buffer c) x
    (_external_tables c) (_types_check c) (arraysize c).
Definition set_tables (x : gmap string (PyVal * PyVal)) (c : Cursor) : Cursor :=
  mkCursor (_client c) (_state c) (_columns c) (_types c) (_rows c)
    (_rowcount c) (_stream_results c) (_max_row_buffer c) (_settings c)
    x (_types_check c) (arraysize c).
Definition set_check (x : bool) (c : Cursor) : Cursor :=
  mkCursor (_client c) (_state c) (_columns c) (_types c) (_rows c)
    (_rowcount c) (_stream_results c) (_max_row_buffer c) (_settings c)
    (_external_tables c) x (arraysize c).
Definition set_arraysize (x : Z) (c : Cursor) : Cursor :=
  mkCursor (_client c) (_state c) (_columns c) (_types c) (_rows c)
    (_rowcount c) (_stream_results c) (_max_row_buffer c) (_settings c)
    (_external_tables c) (_types_check c) x.

(** Lines 281-296.  Everything but the client and [arraysize]. *)
Definition _reset_state : M Cursor unit :=
  modify (set_state NONE);;
  modify (set_columns VNone);;
  modify (set_types VNone);;
  modify (set_rows (OVal VNone));;
  modify (set_rowcount (OVal (VInt (-1))));;
  modify (set_stream false);;
  modify (set_max_row_buffer 0);;
  modify (set_settings_ref None);;
  modify (set_tables ∅);;
  modify (set_check false).

(** Lines 105-111.  The object starts with no attribute at all; the
    placeholder below is overwritten field by field. *)
Definition Cursor__init__ (client : Client) : Cursor :=
  let blank :=
    mkCursor client NONE VNone VNone (OVal VNone) (OVal VNone)
      false 0 None ∅ false 0 in
  snd ((_reset_state;; modify (set_arraysize (-1))) blank).

(** One entry of [description]: the 7-tuple [(name, type_code, None,
    None, None, None, True)], its last component a Python boolean. *)
Record Descriptor : Type := mkDescriptor {
  d_name : PyVal;
  d_type_code : PyVal;
  d_display_size : PyVal;
  d_internal_size : PyVal;
  d_precision : PyVal;
  d_scale : PyVal;
  d_null_ok : bool
}.

(** Lines 113-121.  [x or []], then the built-in [zip] of the two
    sequences, which stops at the shorter one and refuses an argument
    that is not iterable. *)
Definition description : M Cursor (list Descriptor) :=
  columns ← gets (λ c, if truthy (_columns c) then _columns c else VList []);
  types ← gets (λ c, if truthy (_types c) then _types c else VList []);
  names ← lift_result (py_iter columns);
  type_codes ← lift_result (py_iter types);
  mret (map (λ nt, mkDescriptor nt.1 nt.2 VNone VNone VNone VNone true)
          (zip names type_codes)).

(** Lines 123-125. *)
Definition rowcount : M Cursor PyVal :=
  mret (VInt (-1)).

(** Lines 127-129. *)
Definition Cursor_close : M Cursor unit :=
  modify (λ c, set_client (Client_disconnect (_client c)) c);;
  modify (set_state CURSOR_CLOSED).

(** Lines 298-310. *)
Definition _begin_query : M Cursor unit :=
  modify (set_state RUNNING).

Definition _end_query : M Cursor unit :=
  modify (set_state FINISHED).

Definition _check_cursor_closed : M Cursor unit :=
  st ← gets _state;
  if decide (st = CURSOR_CLOSED) then raise (Error "Cursor is closed")
  else mret tt.

Definition _check_query_started : M Cursor unit :=
  st ← gets _state;
  if decide (st = NONE) then raise (Error "No query yet")
  else mret tt.

(** Lines 167-177. *)
Definition fetchone : M Cursor Obj :=
  _check_query_started;;
  stream ← gets _stream_results;
  rows ← gets _rows;
  if (stream : bool) then
    (* next(self._rows, None) *)
    match next_obj rows with
    | (Ok row, rows') => modify (set_rows rows');; mret (OVal row)
    | (Raise StopIteration, rows') => modify (set_rows rows');; mret (OVal VNone)
    | (Raise e, rows') => modify (set_rows rows');; raise e
    end
  else
    if negb (obj_truthy rows) then mret (OVal VNone)
    else
      (* self._rows.pop(0): only a list has [pop] *)
      match rows with
      | OVal (VList (row :: rest)) =>
          modify (set_rows (OVal (VList rest)));; mret (OVal row)
      | _ => raise AttributeError
      end.

Definition slice_str (f : list ascii → list ascii) (s : string) : string :=
  string_of_list_ascii (f (list_ascii_of_string s)).

(** Lines 179-190. *)
Definition fetchmany (size : option Z) : M Cursor Obj :=
  _check_query_started;;
  size ← match size with
         | None => gets arraysize
         | Some n => mret n
         end;
  stream ← gets _stream_results;
  rows ← gets _rows;
  if (stream : bool) then
    (* list(islice(self._rows, size)): a stop that is negative or above
       sys.maxsize is refused before the rows are looked at *)
    if negb (islice_stop_ok size) then raise ValueError
    else
      match islice_list rows (Z.to_nat size) with
      | (Ok l, rows') => modify (set_rows rows');; mret (OVal l)
      | (Raise e, rows') => modify (set_rows rows');; raise e
      end
  else
    match rows with
    | OVal (VList l) =>
        modify (set_rows (OVal (VList (slice_from l size))));;
        mret (OVal (VList (slice_to l size)))
    | OVal (VTuple l) =>
        modify (set_rows (OVal (VTuple (slice_from l size))));;
        mret (OVal (VTuple (slice_to l size)))
    | OVal (VStr s) =>
        modify (set_rows (OVal (VStr (slice_str (λ l, slice_from l size) s))));;
        mret (OVal (VStr (slice_str (λ l, slice_to l size) s)))
    | OVal VNone | OVal (VInt _) | OIter _ => raise TypeError
    end.

(** Lines 192-200. *)
Definition fetchall : M Cursor Obj :=
  _check_query_started;;
  stream ← gets _stream_results;
  rows ← gets _rows;
  if (stream : bool) then
    match list_obj rows with
    | (Ok l, rows') => modify (set_rows rows');; mret (OVal l)
    | (Raise e, rows') => modify (set_rows rows');; raise e
    end
  else
    modify (set_rows (OVal (VList [])));;
    mret rows.

(** Lines 202-219. *)
Definition setinputsizes (sizes : PyVal) : M Cursor unit := mret tt.
Definition setoutputsize (size column : PyVal) : M Cursor unit := mret tt.

Definition set_stream_results (stream_results : bool) (max_row_buffer : Z)
  : M Cursor unit :=
  modify (set_stream stream_results);;
  modify (set_max_row_buffer max_row_buffer).

Definition set_settings (settings : option positive) : M Cursor unit :=
  modify (set_settings_ref settings).

Definition set_types_check (types_check : bool) : M Cursor unit :=
  modify (set_check types_check).

(** Lines 221-233. *)
Definition set_external_table (name : string) (structure data : PyVal)
  : M Cursor unit :=
  modify (λ c, set_tables (<[name := (structure, data)]> (_external_tables c)) c).

(** ** The store of settings dictionaries

    [set_settings] keeps a reference to the caller's dictionary, and
    [_prepare] writes into the dictionary it refers to, so dictionaries
    are objects in a store and the cursor holds an address. *)
Record World : Type := mkWorld {
  heap : gmap positive (gmap string PyVal);
  self : Cursor
}.

Definition on_self {A} (m : M Cursor A) : M World A :=
  λ w, let (r, c) := m (self w) in (r, mkWorld (heap w) c).

Definition dict_at (h : gmap positive (gmap string PyVal)) (l : positive)
  : gmap string PyVal :=
  default ∅ (h !! l).

(** A dictionary is true when it has at least one key. *)
Definition dict_truthy (d : gmap string PyVal) : bool :=
  match map_to_list d with
  | [] => false
  | _ => true
  end.

(** The display [{}]: a new, empty dictionary at an unused address. *)
Definition new_dict : M World positive :=
  λ w, let l := fresh (dom (heap w)) in
       (Ok l, mkWorld (<[l := ∅]> (heap w)) (self w)).

(** [d[key] = v] on the dictionary at address [l]. *)
Definition dict_setitem (l : positive) (key : string) (v : PyVal)
  : M World unit :=
  λ w, (Ok tt,
        mkWorld (<[l := <[key := v]> (dict_at (heap w) l)]> (heap w)) (self w)).

(** [self._settings or {}]. *)
Definition settings_or_new : M World positive :=
  cur ← on_self (gets _settings);
  h ← gets heap;
  match cur with
  | Some l => if dict_truthy (dict_at h l) then mret l else new_dict
  | None => new_dict
  end.

Record Kwargs : Type := mkKwargs {
  kw_settings : option positive;
  kw_external_tables : option (list ExtTable);
  kw_types_check : bool
}.

(** The target [name, (structure, data)] of the comprehension in
    [_prepare], bound to one item of the iteration. *)
Definition unpack_table (item : PyVal) : Result ExtTable :=
  match unpack2 item with
  | Raise e => Raise e
  | Ok (name, rest) =>
      match unpack2 rest with
      | Raise e => Raise e
      | Ok (structure, data) => Ok (mkExtTable name structure data)
      end
  end.

(** Iterating a dictionary yields its keys. *)
Definition dict_iter {V} (d : gmap string V) : list PyVal :=
  map (λ kv, VStr kv.1) (map_to_list d).

(** Lines 237-256. *)
Definition _prepare : M World (EntryPoint * Kwargs) :=
  tables ← on_self (gets _external_tables);
  records ← lift_result (mapR unpack_table (dict_iter tables));
  let external_tables :=
    match records with
    | [] => None
    | _ => Some records
    end in
  stream ← on_self (gets _stream_results);
  execute ← (if (stream : bool) then
               l ← settings_or_new;
               on_self (modify (set_settings_ref (Some l)));;
               buffer ← on_self (gets _max_row_buffer);
               dict_setitem l "max_block_size" (VInt buffer);;
               mret EExecuteIter
             else mret EExecute);
  settings ← on_self (gets _settings);
  check ← on_self (gets _types_check);
  mret (execute, mkKwargs settings external_tables check).

(** The call [execute(operation, params=..., **execute_kwargs)] on the
    client: the client records it and the server answers. *)
Definition Client_call (srv : Server) (e : EntryPoint) (operation : string)
    (params : PyVal) (wct : option bool) (kw : Kwargs) : M World Obj :=
  λ w, let k := mkCall e operation params wct
                  (dict_at (heap w) <$> kw_settings kw)
                  (kw_external_tables kw) (kw_types_check kw) in
       (srv k,
        mkWorld (heap w) (set_client (Client_record k (_client (self w))) (self w))).

(** Line 275: [zip] over the unpacked pairs, its result unpacked into
    [self._columns, self._types]. *)
Definition split_columns (cwt : PyVal) : Result (PyVal * PyVal) :=
  match py_iter cwt with
  | Raise e => Raise e
  | Ok pairs =>
      match mapR py_iter pairs with
      | Raise e => Raise e
      | Ok xss => unpack2 (VList (zip_star xss))
      end
  end.

(** Lines 258-279. *)
Definition _process_response (response : Obj) (executemany : bool)
  : M Cursor unit :=
  response ← (if executemany
              then modify (set_rowcount response);; mret (OVal VNone)
              else mret response);
  if negb (obj_truthy response) then
    modify (set_columns (VList []));;
    modify (set_types (VList []));;
    modify (set_rows (OVal (VList [])))
  else
    stream ← gets _stream_results;
    '(rows, columns_with_types) ←
        (if (stream : bool) then
           match next_obj response with
           | (Ok header, rest) => mret (rest, header)
           | (Raise e, _) => raise e
           end
         else
           '(rows, header) ← lift_result (unpack2_obj response);
           mret (OVal rows, header));
    (if truthy columns_with_types then
       '(columns, types) ← lift_result (split_columns columns_with_types);
       modify (set_columns columns);;
       modify (set_types types)
     else
       modify (set_columns (VList []));;
       modify (set_types (VList [])));;
    modify (set_rows rows).

(** Lines 131-148. *)
Definition execute (srv : Server) (operation : string) (parameters : PyVal)
  : M World unit :=
  on_self _check_cursor_closed;;
  on_self _begin_query;;
  response ← try_except_DriverError
    ('(execute, execute_kwargs) ← _prepare;
     Client_call srv execute operation parameters (Some true) execute_kwargs)
    (λ orig, raise (OperationalError orig));
  on_self (_process_response response false);;
  on_self _end_query.

(** Lines 150-165. *)
Definition executemany (srv : Server) (operation : string)
    (seq_of_parameters : PyVal) : M World unit :=
  on_self _check_cursor_closed;;
  on_self _begin_query;;
  response ← try_except_DriverError
    ('(execute, execute_kwargs) ← _prepare;
     Client_call srv execute operation seq_of_parameters None execute_kwargs)
    (λ orig, raise (OperationalError orig));
  on_self (_process_response response true);;
  on_self _end_query.

(** ** Attribute lookup on a cursor

    [cursor.attr] is resolved among the instance attributes set by
    [__init__] and [_reset_state] and the names bound in the body of
    [class Cursor] (what [object] adds are double-underscore names
    only); any other name raises [AttributeError]. *)
Definition Cursor_instance_attributes : list string :=
  [ "_client"; "_state"; "_columns"; "_types"; "_rows"; "_rowcount";
    "_stream_results"; "_max_row_buffer"; "_settings"; "_external_tables";
    "_types_check"; "arraysize" ].

Definition Cursor_class_attributes : list string :=
  [ "States"; "_states"; "__init__"; "description"; "rowcount"; "close";
    "execute"; "executemany"; "fetchone"; "fetchmany"; "fetchall";
    "setinputsizes"; "setoutputsize"; "set_stream_results"; "set_settings";
    "set_types_check"; "set_external_table"; "_prepare";
    "_process_response"; "_reset_state"; "_begin_query"; "_end_query";
    "_check_cursor_closed"; "_check_query_started" ].

Definition Cursor_hasattr (attr : string) : bool :=
  bool_decide (attr ∈ (Cursor_instance_attributes ++ Cursor_class_attributes)%list).

(** The statement [cursor.attr()]: a call without arguments whose value
    is dropped.  Methods that take no parameter run; the remaining
    attributes are not callable or miss a required argument. *)
Definition Cursor_call0 (attr : string) : M World unit :=
  if negb (Cursor_hasattr attr) then raise AttributeError
  else if String.eqb attr "close" then on_self Cursor_close
  else if String.eqb attr "fetchone" then on_self fetchone;; mret tt
  else if String.eqb attr "fetchmany" then on_self (fetchmany None);; mret tt
  else if String.eqb attr "fetchall" then on_self fetchall;; mret tt
  else if String.eqb attr "_prepare" then _prepare;; mret tt
  else if String.eqb attr "_reset_state" then on_self _reset_state
  else if String.eqb attr "_begin_query" then on_self _begin_query
  else if String.eqb attr "_end_query" then on_self _end_query
  else if String.eqb attr "_check_cursor_closed" then on_self _check_cursor_closed
  else if String.eqb attr "_check_query_started" then on_self _check_query_started
  else if String.eqb attr "States" then mret tt
  else raise TypeError.

(** ** Connection *)

Record Connection : Type := mkConnection {
  cursors : list Cursor;
  dsn : option string;
  user : option string;
  password : option string;
  host : option string;
  database : option string;
  connection_kwargs : gmap string PyVal
}.

(** Lines 54-65 and 313-316. *)
Definition Connection__init__ (dsn user password host database : option string)
    (kwargs : gmap string PyVal) : Connection :=
  mkConnection [] dsn user password host database kwargs.

Definition connect := Connection__init__.

(** Lines 67-72, for connection parameters that the constructor of the
    client accepts: the client is then built without touching the
    network.  [_make_client_by] below covers a constructor that
    refuses them. *)
Definition _make_client (conn : Connection) : Client :=
  match dsn conn with
  | Some d => mkClient (FromUrl d) false 0 []
  | None =>
      mkClient (FromParams (host conn) (user conn) (password conn)
                  (database conn) (connection_kwargs conn)) false 0 []
  end.

(** Lines 86-90, likewise for parameters that the constructor accepts. *)
Definition Connection_cursor : M Connection Cursor :=
  client ← gets _make_client;
  let cursor := Cursor__init__ client in
  modify (λ conn, mkConnection (cursors conn ++ [cursor])%list (dsn conn) (user conn)
                    (password conn) (host conn) (database conn)
                    (connection_kwargs conn));;
  mret cursor.

(** Modelled from the spec: the constructor of the client,
    [Client(host, ...)] or [Client.from_url(dsn)], which returns a
    client or raises, on an option it refuses or a dsn it cannot
    parse. *)
Definition ClientFactory : Type := ClientConfig → Result Client.

(** The arguments [_make_client] gives the constructor: the dsn when
    there is one, the discrete parameters otherwise. *)
Definition client_config (conn : Connection) : ClientConfig :=
  match dsn conn with
  | Some d => FromUrl d
  | None => FromParams (host conn) (user conn) (password conn)
              (database conn) (connection_kwargs conn)
  end.

(** Lines 67-72, the constructor being a parameter. *)
Definition _make_client_by (new_client : ClientFactory) : M Connection Client :=
  cfg ← gets client_config;
  lift_result (new_client cfg).

(** Lines 86-90, the constructor being a parameter: when it raises,
    no cursor is made and nothing is recorded. *)
Definition Connection_cursor_by (new_client : ClientFactory)
  : M Connection Cursor :=
  client ← _make_client_by new_client;
  let cursor := Cursor__init__ client in
  modify (λ conn, mkConnection (cursors conn ++ [cursor])%list (dsn conn)
                    (user conn) (password conn) (host conn) (database conn)
                    (connection_kwargs conn));;
  mret cursor.

(** The state seen from a connection: the store of dictionaries and the
    connection with the cursors it has issued, each in whatever state
    its user has brought it to. *)
Record Session : Type := mkSession {
  store : gmap positive (gmap string PyVal);
  conn : Connection
}.

(** [for cursor in cs: body], stopping at the first exception. *)
Fixpoint for_cursors (body : M World unit) (cs : list Cursor)
    (h : gmap positive (gmap string PyVal))
  : Result unit * gmap positive (gmap string PyVal) * list Cursor :=
  match cs with
  | [] => (Ok tt, h, [])
  | c :: rest =>
      match body (mkWorld h c) with
      | (Ok _, w) =>
          let '(r, h', rest') := for_cursors body rest (heap w) in
          (r, h', self w :: rest')
      | (Raise e, w) => (Raise e, heap w, self w :: rest)
      end
  end.

(** Lines 74-76. *)
Definition Connection_close : M Session unit :=
  λ s, let '(r, h, cs) :=
         for_cursors (Cursor_call0 "disconnect") (cursors (conn s)) (store s) in
       (r, mkSession h
             (mkConnection cs (dsn (conn s)) (user (conn s)) (password (conn s))
                (host (conn s)) (database (conn s)) (connection_kwargs (conn s)))).

(** Lines 78-84. *)
Definition commit : M Connection unit := mret tt.
Definition rollback : M Connection unit := mret tt.

(** * Definitions used in the statements *)

(** ** Responses and what unpacking stores *)

(** The value [columns_with_types]: a list of [(name, type)] pairs. *)
Definition header_val (cwt : list (string * string)) : PyVal :=
  VList (map (λ nt, VTuple [VStr nt.1; VStr nt.2]) cwt).

(** The columns and types [_process_response] stores for a header. *)
Definition columns_of (cwt : list (string * string)) : PyVal :=
  match cwt with
  | [] => VList []
  | _ => VTuple (map (λ nt, VStr nt.1) cwt)
  end.

Definition types_of (cwt : list (string * string)) : PyVal :=
  match cwt with
  | [] => VList []
  | _ => VTuple (map (λ nt, VStr nt.2) cwt)
  end.

Definition pair_items (cwt : list (string * string)) : list (list PyVal) :=
  map (λ nt, [VStr nt.1; VStr nt.2]) cwt.

(** The three setters of the result fields commute with the rest of the
    record, so the outcome of unpacking is best read field by field. *)
Definition with_result (columns types : PyVal) (rows : Obj) (c : Cursor)
  : Cursor :=
  set_rows rows (set_types types (set_columns columns c)).

(** ** The course of a query *)

(** The settings dictionary a streaming [_prepare] writes into, and the
    store once it has been made available. *)
Definition streaming_target (h : gmap positive (gmap string PyVal)) (c : Cursor)
  : positive * gmap positive (gmap string PyVal) :=
  match _settings c with
  | Some l => if dict_truthy (dict_at h l) then (l, h)
              else (fresh (dom h), <[fresh (dom h) := ∅]> h)
  | None => (fresh (dom h), <[fresh (dom h) := ∅]> h)
  end.

(** What either method does once the cursor is known not to be closed
    and [_prepare] has returned. *)
Definition after_prepare (srv : Server) (op : string) (p : PyVal)
    (wct : option bool) (many : bool) (e : EntryPoint) (kw : Kwargs)
    (w1 : World) : Result unit * World :=
  let k := mkCall e op p wct (dict_at (heap w1) <$> kw_settings kw)
             (kw_external_tables kw) (kw_types_check kw) in
  let w2 := mkWorld (heap w1)
              (set_client (Client_record k (_client (self w1))) (self w1)) in
  match srv k with
  | Raise (DriverError d) => (Raise (OperationalError (DriverError d)), w2)
  | Raise x => (Raise x, w2)
  | Ok resp =>
      match _process_response resp many (self w2) with
      | (Ok _, c3) => (Ok tt, mkWorld (heap w2) (set_state FINISHED c3))
      | (Raise x, c3) => (Raise x, mkWorld (heap w2) c3)
      end
  end.

(** The [except DriverError] clause, as a function on exceptions. *)
Definition translated (e : Exc) : Exc :=
  match e with
  | DriverError _ => OperationalError e
  | _ => e
  end.

Definition is_native (e : Exc) : Prop := ∃ d, e = DriverError d.

(** ** Sequences of fetch calls *)

Inductive FetchCall : Type :=
  | FetchOne
  | FetchMany (size : option Z)
  | FetchAll.

Definition fetch (f : FetchCall) : M Cursor Obj :=
  match f with
  | FetchOne => fetchone
  | FetchMany size => fetchmany size
  | FetchAll => fetchall
  end.

(** The rows one call hands to the caller: [fetchone] gives a row or the
    null marker, the other two a list. *)
Definition delivered (f : FetchCall) (o : Obj) : list PyVal :=
  match f, o with
  | FetchOne, OVal VNone => []
  | FetchOne, OVal row => [row]
  | _, OVal (VList l) => l
  | _, _ => []
  end.

(** A sequence of fetch calls, with the concatenation of what they
    delivered; it stops at the first call that raises. *)
Fixpoint fetches (fs : list FetchCall) : M Cursor (list PyVal) :=
  match fs with
  | [] => mret []
  | f :: rest =>
      o ← fetch f;
      more ← fetches rest;
      mret (delivered f o ++ more)%list
  end.

(** A sequence of fetch calls with the value each one returned. *)
Fixpoint answers (fs : list FetchCall) : M Cursor (list Obj) :=
  match fs with
  | [] => mret []
  | f :: rest =>
      o ← fetch f;
      more ← answers rest;
      mret (o :: more)
  end.

(** What a fetch returns when there is nothing to return: the null
    marker from [fetchone], an empty list from the other two. *)
Definition empty_answer (f : FetchCall) : Obj :=
  match f with
  | FetchOne => OVal VNone
  | _ => OVal (VList [])
  end.

(** A call with an explicit, non-negative size (or no size at all to
    give); in streaming mode the size is moreover one that [islice]
    accepts, [sys.maxsize] at most. *)
Definition valid_size (stream : bool) (f : FetchCall) : Prop :=
  match f with
  | FetchMany None => False
  | FetchMany (Some n) => 0 ≤ n ∧ (stream = true → n ≤ sys_maxsize)
  | _ => True
  end.

(** What a fetch call is to return when the rows [l] are left, after
    the description of the fetch operations: [fetchone] the first row, or
    the null marker when none is left; [fetchmany(k)] the first [k] rows,
    fewer when fewer are left; [fetchall] all of them. *)
Definition answer_of (f : FetchCall) (l : list PyVal) : Obj :=
  match f with
  | FetchOne => match l with [] => OVal VNone | row :: _ => OVal row end
  | FetchMany size => OVal (VList (take (Z.to_nat (default 0 size)) l))
  | FetchAll => OVal (VList l)
  end.

(** The rows that call leaves to later ones. *)
Definition rest_of (f : FetchCall) (l : list PyVal) : list PyVal :=
  match f with
  | FetchOne => drop 1 l
  | FetchMany size => drop (Z.to_nat (default 0 size)) l
  | FetchAll => []
  end.

(** The same for a sequence of calls: what each one is to return, and
    the rows left after the last. *)
Fixpoint expected_answers (fs : list FetchCall) (l : list PyVal) : list Obj :=
  match fs with
  | [] => []
  | f :: rest => answer_of f l :: expected_answers rest (rest_of f l)
  end.

Fixpoint left_after (fs : list FetchCall) (l : list PyVal) : list PyVal :=
  match fs with
  | [] => l
  | f :: rest => left_after rest (rest_of f l)
  end.

Definition is_row (v : PyVal) : Prop := ∃ items, v = VTuple items.

(** The cursor has had a query and still holds exactly the rows [l], in
    the representation of its mode. *)
Definition rows_left (c : Cursor) (l : list PyVal) : Prop :=
  _state c ≠ NONE
  ∧ _rows c = if _stream_results c then OIter (mkIter l EndStop)
              else OVal (VList l).

(** ** Staged options and sequences of queries *)

(** The staged options other than the settings dictionary. *)
Definition options_of (c : Cursor)
  : gmap string (PyVal * PyVal) * bool * bool * Z * option positive :=
  (_external_tables c, _types_check c, _stream_results c, _max_row_buffer c,
   _settings c).

(** The settings the cursor refers to, as a dictionary. *)
Definition settings_view (w : World) : gmap string PyVal :=
  match _settings (self w) with
  | Some l => dict_at (heap w) l
  | None => ∅
  end.

Inductive QueryCall : Type :=
  | Execute (srv : Server) (op : string) (p : PyVal)
  | ExecuteMany (srv : Server) (op : string) (p : PyVal).

Definition query (q : QueryCall) : M World unit :=
  match q with
  | Execute srv op p => execute srv op p
  | ExecuteMany srv op p => executemany srv op p
  end.

(** Queries run one after the other on the same cursor, the caller
    going on after a call that raised. *)
Fixpoint queries (qs : list QueryCall) (w : World) : World :=
  match qs with
  | [] => w
  | q :: rest => queries rest (query q w).2
  end.

(** ** Operations on a cursor and on a connection, one call each *)

(** The statement text and the parameters of a query. *)
Definition query_text (q : QueryCall) : string :=
  match q with Execute _ op _ | ExecuteMany _ op _ => op end.

Definition query_params (q : QueryCall) : PyVal :=
  match q with Execute _ _ p | ExecuteMany _ _ p => p end.

(** [execute] asks for the column types; [executemany] does not pass
    the argument. *)
Definition query_with_column_types (q : QueryCall) : option bool :=
  match q with Execute _ _ _ => Some true | ExecuteMany _ _ _ => None end.

(** The outcomes of queries run one after the other. *)
Fixpoint outcomes (qs : list QueryCall) (w : World) : list (Result unit) :=
  match qs with
  | [] => []
  | q :: rest => (query q w).1 :: outcomes rest (query q w).2
  end.

(** The public operations of a cursor, as one call each.  [arraysize] is
    a plain attribute, set by assignment. *)
Inductive Op : Type :=
  | OpQuery (q : QueryCall)
  | OpFetch (f : FetchCall)
  | OpClose
  | OpDescription
  | OpRowcount
  | OpSetInputSizes (sizes : PyVal)
  | OpSetOutputSize (size column : PyVal)
  | OpSetStreamResults (stream_results : bool) (max_row_buffer : Z)
  | OpSetSettings (settings : option positive)
  | OpSetTypesCheck (types_check : bool)
  | OpSetExternalTable (name : string) (structure data : PyVal)
  | OpSetArraysize (n : Z).

Definition run_op (o : Op) : M World unit :=
  match o with
  | OpQuery q => query q
  | OpFetch f => on_self (fetch f);; mret tt
  | OpClose => on_self Cursor_close
  | OpDescription => on_self description;; mret tt
  | OpRowcount => on_self rowcount;; mret tt
  | OpSetInputSizes sizes => on_self (setinputsizes sizes)
  | OpSetOutputSize size column => on_self (setoutputsize size column)
  | OpSetStreamResults b n => on_self (set_stream_results b n)
  | OpSetSettings s => on_self (set_settings s)
  | OpSetTypesCheck b => on_self (set_types_check b)
  | OpSetExternalTable name structure data =>
      on_self (set_external_table name structure data)
  | OpSetArraysize n => on_self (modify (set_arraysize n))
  end.

(** Operations run one after the other on the same cursor, the caller
    going on after a call that raised. *)
Fixpoint run_ops (os : list Op) (w : World) : World :=
  match os with
  | [] => w
  | o :: rest => run_ops rest (run_op o w).2
  end.

(** The number of [close()] calls among the operations. *)
Fixpoint closes (os : list Op) : nat :=
  match os with
  | [] => O
  | OpClose :: rest => S (closes rest)
  | _ :: rest => closes rest
  end.

(** [cursor()] called [n] times with the constructor [new_client], the
    caller going on after a call that raised. *)
Fixpoint issue_cursors_by (new_client : ClientFactory) (n : nat)
    (conn : Connection) : Connection :=
  match n with
  | O => conn
  | S n' => issue_cursors_by new_client n' (Connection_cursor_by new_client conn).2
  end.

(** A constructor that accepts every configuration and returns a client
    that is connected and has received no call. *)
Definition accepting_client : ClientFactory :=
  λ cfg, Ok (mkClient cfg false 0 []).

(** A constructor that refuses every configuration. *)
Definition refusing_client : ClientFactory :=
  λ _, Raise TypeError.

(** ** Invariants and views of a cursor *)

(** The cursor with its row buffer blanked: two cursors that agree on
    it differ in [_rows] at most. *)
Definition without_rows (c : Cursor) : Cursor := set_rows (OVal VNone) c.

(** Columns and types are both unset, both empty, or two tuples of one
    length. *)
Definition paired (c : Cursor) : Prop :=
  (_columns c = VNone ∧ _types c = VNone)
  ∨ (_columns c = VList [] ∧ _types c = VList [])
  ∨ ∃ a b, _columns c = VTuple a ∧ _types c = VTuple b ∧ length a = length b.

(** The column names a cursor holds. *)
Definition column_names (c : Cursor) : list PyVal :=
  match _columns c with
  | VTuple l | VList l => l
  | _ => []
  end.

Definition closed_for_good (w : World) : Prop :=
  _state (self w) = CURSOR_CLOSED ∧ disconnected (_client (self w)) = true.

(** The descriptor the adapter builds for a header pair. *)
Definition descriptor_of (nt : string * string) : Descriptor :=
  mkDescriptor (VStr nt.1) (VStr nt.2) VNone VNone VNone VNone true.

(** ** Sample inputs *)

Definition sample_client : Client :=
  mkClient (FromUrl "clickhouse://localhost") false 0 [].

Definition sample_header : list (string * string) := [("x", "UInt8")].

Definition sample_rows : list PyVal := [VTuple [VInt 1]; VTuple [VInt 2]].

(** A server answering every buffered call with two rows of one column. *)
Definition buffered_server : Server :=
  λ _, Ok (OVal (VTuple [VList sample_rows; header_val sample_header])).

(** The same result as a lazy sequence: the header, then the rows. *)
Definition streaming_server : Server :=
  λ _, Ok (OIter (mkIter (header_val sample_header :: sample_rows) EndStop)).

(** A server on which every call fails with the native error. *)
Definition failing_server : Server :=
  λ _, Raise (DriverError "Code: 60. Table default.t does not exist").

(** A server whose lazy answer fails with the native error when its
    first element is asked for. *)
Definition lazily_failing_server : Server :=
  λ _, Ok (OIter (mkIter []
              (EndRaise (DriverError "Code: 210. Connection refused")))).

Definition new_world : World := mkWorld ∅ (Cursor__init__ sample_client).

Definition streaming_world : World :=
  (on_self (set_stream_results true 100) new_world).2.

Definition buffered_finished : World :=
  (execute buffered_server "SELECT x FROM t" VNone new_world).2.

Definition streaming_finished : World :=
  (execute streaming_server "SELECT x FROM t" VNone streaming_world).2.

(** The caller stages [{"max_block_size": 5}] and turns streaming on
    with a row buffer of 100. *)
Definition tuned_world : World :=
  (on_self (set_settings (Some 1%positive);; set_stream_results true 100)
     (mkWorld {[ 1%positive := {[ "max_block_size" := VInt 5 ]} ]}
        (Cursor__init__ sample_client))).2.

(** The caller stages [{"max_block_size": 5, "max_threads": 2}], asks
    for the types check and turns streaming on with a row buffer of
    100. *)
Definition staged_world : World :=
  (on_self (set_settings (Some 1%positive);; set_types_check true;;
            set_stream_results true 100)
     (mkWorld {[ 1%positive := {[ "max_block_size" := VInt 5;
                                  "max_threads" := VInt 2 ]} ]}
        (Cursor__init__ sample_client))).2.

(** The caller stages [{"max_block_size": 5}] and stays in buffered
    mode, with a row buffer of 7. *)
Definition buffered_tuned_world : World :=
  (on_self (set_settings (Some 1%positive);; set_stream_results false 7)
     (mkWorld {[ 1%positive := {[ "max_block_size" := VInt 5 ]} ]}
        (Cursor__init__ sample_client))).2.

(** The caller stages an empty dictionary and turns streaming on. *)
Definition empty_settings_world : World :=
  (on_self (set_settings (Some 1%positive);; set_stream_results true 100)
     (mkWorld {[ 1%positive := ∅ ]} (Cursor__init__ sample_client))).2.

(** * Properties *)

(** ** Unfolding the monad *)

Ltac unfold_monad :=
  cbv [mbind mret M_bind M_ret bind ret raise get gets modify lift_result
       on_self try_except_DriverError] in *.

(** ** External tables in [_prepare] *)

(** No string can be unpacked as [name, (structure, data)]: it needs two
    characters, and then the second, one character long, needs two. *)
Lemma unpack_table_str (k : string) : unpack_table (VStr k) = Raise ValueError.
Proof. by destruct k as [|a [|b [|c k]]]. Qed.

Lemma dict_iter_empty {V} : dict_iter (∅ : gmap string V) = [].
Proof. unfold dict_iter. by rewrite map_to_list_empty. Qed.

Lemma dict_iter_nonempty {V} (d : gmap string V) :
  d ≠ ∅ → ∃ k rest, dict_iter d = VStr k :: rest.
Proof.
  intros Hne. unfold dict_iter.
  destruct (map_to_list d) as [|[k v] l] eqn:E.
  - by apply map_to_list_empty_iff in E.
  - by exists k, (map (λ kv, VStr kv.1) l).
Qed.

Lemma records_of_tables {V} (d : gmap string V) :
  mapR unpack_table (dict_iter d)
  = if decide (d = ∅) then Ok [] else Raise ValueError.
Proof.
  case_decide as Hd.
  - subst. by rewrite dict_iter_empty.
  - destruct (dict_iter_nonempty d Hd) as (k & rest & ->).
    simpl. by rewrite unpack_table_str.
Qed.

Arguments _prepare : simpl never.
Arguments _process_response : simpl never.

Lemma prepare_tables_raise (w : World) :
  _external_tables (self w) ≠ ∅ → _prepare w = (Raise ValueError, w).
Proof.
  intros Hne. destruct w as [h c]. simpl in Hne.
  unfold _prepare. unfold_monad. simpl.
  rewrite records_of_tables, decide_False by done. reflexivity.
Qed.

Lemma execute_tables_raise srv op p (w : World) :
  _state (self w) ≠ CURSOR_CLOSED →
  _external_tables (self w) ≠ ∅ →
  execute srv op p w
  = (Raise ValueError, mkWorld (heap w) (set_state RUNNING (self w))).
Proof.
  intros Hst Hne. destruct w as [h c]. simpl in *.
  unfold execute, _check_cursor_closed, _begin_query. unfold_monad. simpl.
  rewrite decide_False by done.
  rewrite prepare_tables_raise by done. reflexivity.
Qed.

Lemma prepare_buffered (h : gmap positive (gmap string PyVal)) (c : Cursor) :
  _external_tables c = ∅ →
  _stream_results c = false →
  _prepare (mkWorld h c)
  = (Ok (EExecute, mkKwargs (_settings c) None (_types_check c)), mkWorld h c).
Proof.
  intros Ht Hs. unfold _prepare. unfold_monad. simpl.
  rewrite records_of_tables, decide_True by done. by rewrite Hs.
Qed.

Lemma prepare_streaming (h : gmap positive (gmap string PyVal)) (c : Cursor) :
  _external_tables c = ∅ →
  _stream_results c = true →
  _prepare (mkWorld h c)
  = let '(l, h1) := streaming_target h c in
    (Ok (EExecuteIter, mkKwargs (Some l) None (_types_check c)),
     mkWorld (<[l := <["max_block_size" := VInt (_max_row_buffer c)]> (dict_at h1 l)]> h1)
             (set_settings_ref (Some l) c)).
Proof.
  intros Ht Hs. unfold _prepare, settings_or_new, streaming_target, new_dict,
    dict_setitem. unfold_monad. simpl.
  rewrite records_of_tables, decide_True by done. rewrite Hs. simpl.
  destruct (_settings c) as [l|]; [destruct (dict_truthy (dict_at h l))|]; reflexivity.
Qed.

(** ** The shape of [execute] and [executemany] *)

Lemma execute_closed srv op p (w : World) :
  _state (self w) = CURSOR_CLOSED →
  execute srv op p w = (Raise (Error "Cursor is closed"), w).
Proof.
  intros Hst. destruct w as [h c]. simpl in *.
  unfold execute, _check_cursor_closed. unfold_monad. simpl.
  by rewrite decide_True.
Qed.

Lemma executemany_closed srv op p (w : World) :
  _state (self w) = CURSOR_CLOSED →
  executemany srv op p w = (Raise (Error "Cursor is closed"), w).
Proof.
  intros Hst. destruct w as [h c]. simpl in *.
  unfold executemany, _check_cursor_closed. unfold_monad. simpl.
  by rewrite decide_True.
Qed.

Lemma execute_run srv op p (h : gmap positive (gmap string PyVal)) (c : Cursor)
    e kw w1 :
  _state c ≠ CURSOR_CLOSED →
  _prepare (mkWorld h (set_state RUNNING c)) = (Ok (e, kw), w1) →
  execute srv op p (mkWorld h c)
  = after_prepare srv op p (Some true) false e kw w1.
Proof.
  intros Hst Hp.
  unfold execute, _check_cursor_closed, _begin_query, _end_query. unfold_monad.
  simpl. rewrite decide_False by done. cbn [heap self]. rewrite Hp.
  unfold after_prepare, Client_call. simpl.
  destruct (srv _) as [resp|[]]; try reflexivity.
  all: simpl; by destruct (_process_response resp false _) as [[[]|x] c3].
Qed.

Lemma executemany_run srv op p (h : gmap positive (gmap string PyVal))
    (c : Cursor) e kw w1 :
  _state c ≠ CURSOR_CLOSED →
  _prepare (mkWorld h (set_state RUNNING c)) = (Ok (e, kw), w1) →
  executemany srv op p (mkWorld h c)
  = after_prepare srv op p None true e kw w1.
Proof.
  intros Hst Hp.
  unfold executemany, _check_cursor_closed, _begin_query, _end_query.
  unfold_monad. simpl. rewrite decide_False by done.
  cbn [heap self]. rewrite Hp.
  unfold after_prepare, Client_call. simpl.
  destruct (srv _) as [resp|[]]; try reflexivity.
  all: simpl; by destruct (_process_response resp true _) as [[[]|x] c3].
Qed.

Lemma executemany_tables_raise srv op p (w : World) :
  _state (self w) ≠ CURSOR_CLOSED →
  _external_tables (self w) ≠ ∅ →
  executemany srv op p w
  = (Raise ValueError, mkWorld (heap w) (set_state RUNNING (self w))).
Proof.
  intros Hst Hne. destruct w as [h c]. simpl in *.
  unfold executemany, _check_cursor_closed, _begin_query. unfold_monad. simpl.
  rewrite decide_False by done.
  rewrite prepare_tables_raise by done. reflexivity.
Qed.

(** ** Unpacking a response *)

Lemma mapR_py_iter_pairs (cwt : list (string * string)) :
  mapR py_iter (map (λ nt, VTuple [VStr nt.1; VStr nt.2]) cwt)
  = Ok (pair_items cwt).
Proof.
  induction cwt as [|nt cwt IH]; [done|].
  simpl. by rewrite IH.
Qed.

Lemma min_length_pairs nt (cwt : list (string * string)) :
  min_length (pair_items (nt :: cwt)) = 2%nat.
Proof.
  simpl. induction cwt as [|x cwt IH]; [done|].
  simpl. by rewrite IH.
Qed.

Lemma split_columns_header nt (cwt : list (string * string)) :
  split_columns (header_val (nt :: cwt))
  = Ok (columns_of (nt :: cwt), types_of (nt :: cwt)).
Proof.
  unfold split_columns, header_val. cbn [py_iter].
  rewrite mapR_py_iter_pairs. unfold zip_star.
  rewrite min_length_pairs. unfold pair_items.
  cbn [zip_star_n unpack2 py_iter columns_of types_of].
  rewrite !map_map. reflexivity.
Qed.

Lemma truthy_header (cwt : list (string * string)) :
  truthy (header_val cwt) = match cwt with [] => false | _ => true end.
Proof. by destruct cwt. Qed.

Lemma process_response_buffered (c : Cursor) rows (cwt : list (string * string)) :
  _stream_results c = false →
  _process_response (OVal (VTuple [VList rows; header_val cwt])) false c
  = (Ok tt, with_result (columns_of cwt) (types_of cwt) (OVal (VList rows)) c).
Proof.
  intros Hs. unfold _process_response. unfold_monad. simpl. rewrite Hs.
  destruct cwt as [|nt cwt]; [done|].
  rewrite truthy_header, split_columns_header. reflexivity.
Qed.

Lemma process_response_streaming (c : Cursor) rows e
    (cwt : list (string * string)) :
  _stream_results c = true →
  _process_response (OIter (mkIter (header_val cwt :: rows) e)) false c
  = (Ok tt,
     with_result (columns_of cwt) (types_of cwt) (OIter (mkIter rows e)) c).
Proof.
  intros Hs. unfold _process_response. unfold_monad. simpl. rewrite Hs.
  destruct cwt as [|nt cwt]; [done|].
  rewrite truthy_header, split_columns_header. reflexivity.
Qed.

Lemma process_response_many (c : Cursor) (response : Obj) :
  _process_response response true c
  = (Ok tt,
     with_result (VList []) (VList []) (OVal (VList []))
       (set_rowcount response c)).
Proof. reflexivity. Qed.

(** ** C1: external tables handed to the client *)

(** With no table registered the client is told [None], not an empty
    list. *)
Lemma prepare_without_tables (h : gmap positive (gmap string PyVal)) (c : Cursor) :
  _external_tables c = ∅ →
  ∃ e kw w1, _prepare (mkWorld h c) = (Ok (e, kw), w1)
             ∧ kw_external_tables kw = None.
Proof.
  intros Ht. destruct (_stream_results c) eqn:Hs.
  - rewrite prepare_streaming by done.
    destruct (streaming_target h c) as [l h1]. eauto.
  - rewrite prepare_buffered by done. eauto.
Qed.

(** C1, at the failing input.  A cursor with the table ["ext"], of
    structure [[("x", "Int32")]] and data [[(1,)]], registered: [execute]
    raises [ValueError] while building the list of tables, because the
    comprehension iterates over the keys of the dictionary, and the client
    receives no call at all, so the registered triple is never passed. *)
Theorem C1_registered_table_never_reaches_client (srv : Server) (client : Client) :
  let cur :=
    (set_external_table "ext" (VList [VTuple [VStr "x"; VStr "Int32"]])
       (VList [VTuple [VInt 1]]) (Cursor__init__ client)).2 in
  let out := execute srv "SELECT 1" VNone (mkWorld ∅ cur) in
  out.1 = Raise ValueError ∧ calls (_client (self out.2)) = calls client.
Proof.
  intros cur out. subst out.
  rewrite execute_tables_raise.
  - done.
  - done.
  - apply insert_non_empty.
Qed.

(** ** C2: [rowcount] *)

Lemma rowcount_constant (c : Cursor) : rowcount c = (Ok (VInt (-1)), c).
Proof. reflexivity. Qed.

(** C2, at the failing input.  On a new cursor, [executemany] answered by
    the driver with the count [n] succeeds and stores [n] in [_rowcount],
    yet the [rowcount] property read right after it is [-1]. *)
Theorem C2_rowcount_ignores_executemany (client : Client) (n : Z)
    (op : string) (ps : PyVal) :
  let srv : Server := λ _, Ok (OVal (VInt n)) in
  let out := executemany srv op ps (mkWorld ∅ (Cursor__init__ client)) in
  out.1 = Ok tt
  ∧ _rowcount (self out.2) = OVal (VInt n)
  ∧ (rowcount (self out.2)).1 = Ok (VInt (-1)).
Proof.
  intros srv out. subst out.
  erewrite executemany_run; [|done|by apply prepare_buffered].
  unfold after_prepare. cbn [srv].
  rewrite process_response_many. done.
Qed.

(** ** C4: [Connection.close] *)

Lemma Cursor_call0_disconnect (w : World) :
  Cursor_call0 "disconnect" w = (Raise AttributeError, w).
Proof. reflexivity. Qed.

Lemma Connection_close_empty (s : Session) :
  cursors (conn s) = [] → Connection_close s = (Ok tt, s).
Proof.
  destruct s as [h [cs ? ? ? ? ? ?]]. simpl. intros ->. reflexivity.
Qed.

Lemma Connection_close_nonempty (s : Session) :
  cursors (conn s) ≠ [] → Connection_close s = (Raise AttributeError, s).
Proof.
  destruct s as [h [cs ? ? ? ? ? ?]]. simpl. intros Hne.
  destruct cs as [|c cs]; [done|]. reflexivity.
Qed.

(** C4, at the failing input.  On a connection that has issued one
    cursor, [close] raises [AttributeError], since a [Cursor] has no
    [disconnect] attribute, and the client of that cursor is left
    connected. *)
Theorem C4_close_raises_after_one_cursor
    (h : gmap positive (gmap string PyVal))
    (dsn user password host database : option string)
    (kwargs : gmap string PyVal) :
  let conn1 :=
    (Connection_cursor (connect dsn user password host database kwargs)).2 in
  let out := Connection_close (mkSession h conn1) in
  out.1 = Raise AttributeError
  ∧ length (cursors (conn out.2)) = 1%nat
  ∧ Forall (λ c, disconnected (_client c) = false) (cursors (conn out.2)).
Proof.
  intros conn1 out. subst out.
  rewrite Connection_close_nonempty by done.
  split; [done|]. split; [done|].
  subst conn1. cbn. constructor; [|constructor].
  by destruct dsn.
Qed.

(** ** Fetching *)

Ltac run_fetch :=
  unfold fetchone, fetchmany, fetchall, _check_query_started;
  unfold_monad; simpl.

Lemma fetch_before_query (c : Cursor) (size : option Z) :
  _state c = NONE →
  fetchone c = (Raise (Error "No query yet"), c)
  ∧ fetchmany size c = (Raise (Error "No query yet"), c)
  ∧ fetchall c = (Raise (Error "No query yet"), c).
Proof.
  intros Hst. run_fetch. rewrite Hst. by rewrite decide_True.
Qed.

Lemma fetchmany_default (c : Cursor) :
  fetchmany None c = fetchmany (Some (arraysize c)) c.
Proof.
  run_fetch. by destruct (decide (_state c = NONE)).
Qed.

Lemma fetchmany_buffered (c : Cursor) (l : list PyVal) (size : Z) :
  _state c ≠ NONE →
  _stream_results c = false →
  _rows c = OVal (VList l) →
  fetchmany (Some size) c
  = (Ok (OVal (VList (slice_to l size))),
     set_rows (OVal (VList (slice_from l size))) c).
Proof.
  intros Hst Hs Hr. run_fetch.
  rewrite decide_False by done. by rewrite Hs, Hr.
Qed.

Lemma islice_stop_ok_true (size : Z) :
  0 ≤ size → size ≤ sys_maxsize → islice_stop_ok size = true.
Proof.
  intros H0 H1. unfold islice_stop_ok.
  by rewrite (proj2 (Z.leb_le 0 size)), (proj2 (Z.leb_le size sys_maxsize)).
Qed.

Lemma islice_stop_ok_false (size : Z) :
  size < 0 ∨ sys_maxsize < size → islice_stop_ok size = false.
Proof.
  intros [H|H]; unfold islice_stop_ok.
  - by rewrite (proj2 (Z.leb_gt 0 size)).
  - rewrite (proj2 (Z.leb_gt size sys_maxsize)) by done.
    apply andb_false_r.
Qed.

Lemma fetchmany_streaming_refused (c : Cursor) (size : Z) :
  _state c ≠ NONE →
  _stream_results c = true →
  size < 0 ∨ sys_maxsize < size →
  fetchmany (Some size) c = (Raise ValueError, c).
Proof.
  intros Hst Hs Hout. run_fetch.
  rewrite decide_False by done. rewrite Hs.
  by rewrite islice_stop_ok_false.
Qed.

Lemma fetchmany_streaming_negative (c : Cursor) (size : Z) :
  _state c ≠ NONE →
  _stream_results c = true →
  size < 0 →
  fetchmany (Some size) c = (Raise ValueError, c).
Proof. intros Hst Hs Hneg. apply fetchmany_streaming_refused; auto. Qed.

Lemma fetchmany_streaming (c : Cursor) (l : list PyVal) (e : IterEnd) (size : Z) :
  _state c ≠ NONE →
  _stream_results c = true →
  _rows c = OIter (mkIter l e) →
  0 ≤ size ≤ sys_maxsize →
  (Z.to_nat size ≤ length l)%nat →
  fetchmany (Some size) c
  = (Ok (OVal (VList (take (Z.to_nat size) l))),
     set_rows (OIter (mkIter (drop (Z.to_nat size) l) e)) c).
Proof.
  intros Hst Hs Hr [Hsize Hmax] Hlen. run_fetch.
  rewrite decide_False by done. rewrite Hs, Hr.
  rewrite islice_stop_ok_true by done. simpl.
  by rewrite decide_True.
Qed.

Lemma fetchmany_streaming_short (c : Cursor) (l : list PyVal) (size : Z) :
  _state c ≠ NONE →
  _stream_results c = true →
  _rows c = OIter (mkIter l EndStop) →
  0 ≤ size ≤ sys_maxsize →
  (length l < Z.to_nat size)%nat →
  fetchmany (Some size) c
  = (Ok (OVal (VList l)), set_rows (OIter exhausted) c).
Proof.
  intros Hst Hs Hr [Hsize Hmax] Hlen. run_fetch.
  rewrite decide_False by done. rewrite Hs, Hr.
  rewrite islice_stop_ok_true by done. simpl.
  rewrite decide_False by lia. reflexivity.
Qed.

Lemma fetchone_buffered_cons (c : Cursor) (row : PyVal) (rest : list PyVal) :
  _state c ≠ NONE →
  _stream_results c = false →
  _rows c = OVal (VList (row :: rest)) →
  fetchone c = (Ok (OVal row), set_rows (OVal (VList rest)) c).
Proof.
  intros Hst Hs Hr. run_fetch.
  rewrite decide_False by done. by rewrite Hs, Hr.
Qed.

Lemma fetchone_buffered_nil (c : Cursor) :
  _state c ≠ NONE →
  _stream_results c = false →
  _rows c = OVal (VList []) →
  fetchone c = (Ok (OVal VNone), c).
Proof.
  intros Hst Hs Hr. run_fetch.
  rewrite decide_False by done. by rewrite Hs, Hr.
Qed.

Lemma fetchone_streaming_cons (c : Cursor) (row : PyVal) (rest : list PyVal)
    (e : IterEnd) :
  _state c ≠ NONE →
  _stream_results c = true →
  _rows c = OIter (mkIter (row :: rest) e) →
  fetchone c = (Ok (OVal row), set_rows (OIter (mkIter rest e)) c).
Proof.
  intros Hst Hs Hr. run_fetch.
  rewrite decide_False by done. by rewrite Hs, Hr.
Qed.

Lemma fetchone_streaming_nil (c : Cursor) :
  _state c ≠ NONE →
  _stream_results c = true →
  _rows c = OIter exhausted →
  fetchone c = (Ok (OVal VNone), set_rows (OIter exhausted) c).
Proof.
  intros Hst Hs Hr. run_fetch.
  rewrite decide_False by done. by rewrite Hs, Hr.
Qed.

Lemma fetchall_buffered (c : Cursor) :
  _state c ≠ NONE →
  _stream_results c = false →
  fetchall c = (Ok (_rows c), set_rows (OVal (VList [])) c).
Proof.
  intros Hst Hs. run_fetch.
  rewrite decide_False by done. by rewrite Hs.
Qed.

Lemma fetchall_streaming (c : Cursor) (l : list PyVal) :
  _state c ≠ NONE →
  _stream_results c = true →
  _rows c = OIter (mkIter l EndStop) →
  fetchall c = (Ok (OVal (VList l)), set_rows (OIter exhausted) c).
Proof.
  intros Hst Hs Hr. run_fetch.
  rewrite decide_False by done. by rewrite Hs, Hr.
Qed.

Lemma slice_stop_minus_one (n : nat) : slice_stop n (-1) = (n - 1)%nat.
Proof. unfold slice_stop. simpl. lia. Qed.

Lemma slice_stop_nonneg (n : nat) (size : Z) :
  0 ≤ size → slice_stop n size = Z.to_nat size.
Proof. intros H. unfold slice_stop. by rewrite (proj2 (Z.ltb_ge size 0)). Qed.

(** ** C3: [fetchmany] without a size *)

Lemma take_all_but_last_nil {A} (l : list A) :
  take (length l - 1) l = [] ↔ (length l ≤ 1)%nat.
Proof.
  destruct l as [|a [|b l]]; simpl; split; intros; try done; lia.
Qed.

(** C3 as stated fails: after a buffered query with two rows,
    [fetchmany()] returns the first row, not an empty list, and after a
    streaming query it raises [ValueError]. *)
Lemma C3_counterexample :
  _state (self buffered_finished) = FINISHED
  ∧ (fetchmany None (self buffered_finished)).1
    = Ok (OVal (VList [VTuple [VInt 1]]))
  ∧ (fetchmany None (self buffered_finished)).1 ≠ Ok (OVal (VList []))
  ∧ _state (self streaming_finished) = FINISHED
  ∧ (fetchmany None (self streaming_finished)).1 = Raise ValueError.
Proof.
  assert (Hb : (fetchmany None (self buffered_finished)).1
               = Ok (OVal (VList [VTuple [VInt 1]]))) by (vm_compute; reflexivity).
  split; [vm_compute; reflexivity|]. split; [exact Hb|].
  split; [rewrite Hb; discriminate|].
  split; vm_compute; reflexivity.
Qed.

(** C3, amended.  A new cursor has [arraysize = -1], and [fetchmany()]
    with no size is [fetchmany(arraysize)], whatever [arraysize] holds.
    On a FINISHED cursor whose [arraysize] is still [-1], in buffered
    mode the call returns every buffered row but the last one, an empty
    list exactly when at most one row is buffered, and leaves the last
    row in the buffer; in streaming mode it raises [ValueError] and
    leaves the cursor, row source included, as it was. *)
Theorem C3_fetchmany_default_size (c : Cursor) :
  _state c = FINISHED →
  (∀ client, arraysize (Cursor__init__ client) = -1)
  ∧ (∀ c', fetchmany None c' = fetchmany (Some (arraysize c')) c')
  ∧ (arraysize c = -1 →
     (∀ l, _stream_results c = false → _rows c = OVal (VList l) →
        fetchmany None c
        = (Ok (OVal (VList (take (length l - 1) l))),
           set_rows (OVal (VList (drop (length l - 1) l))) c)
        ∧ (take (length l - 1) l = [] ↔ (length l ≤ 1)%nat))
     ∧ (_stream_results c = true → fetchmany None c = (Raise ValueError, c))).
Proof.
  intros Hst.
  assert (Hne : _state c ≠ NONE) by (rewrite Hst; discriminate).
  split; [intros; reflexivity|]. split; [apply fetchmany_default|].
  intros Ha. split.
  - intros l Hs Hr. split; [|apply take_all_but_last_nil].
    rewrite fetchmany_default, Ha, (fetchmany_buffered c l) by done.
    unfold slice_to, slice_from. by rewrite slice_stop_minus_one.
  - intros Hs. rewrite fetchmany_default, Ha.
    by apply fetchmany_streaming_negative.
Qed.

Lemma C3_fetchmany_default_size_witness :
  fetchmany None (self buffered_finished)
  = (Ok (OVal (VList [VTuple [VInt 1]])),
     set_rows (OVal (VList [VTuple [VInt 2]])) (self buffered_finished)).
Proof.
  pose proof (C3_fetchmany_default_size (self buffered_finished) eq_refl)
    as (_ & _ & H).
  exact (proj1 (proj1 (H eq_refl) sample_rows eq_refl eq_refl)).
Defined.

(** ** C5: the errors a cursor raises *)

Lemma unpack2_error (v : PyVal) (e : Exc) :
  unpack2 v = Raise e → ¬ is_native e.
Proof.
  unfold unpack2. intros H [d ->].
  destruct v as [| |s|l|l]; simpl in H; try discriminate;
    [destruct (chars s) as [|? [|? [|? ?]]]
    |destruct l as [|? [|? [|? ?]]]
    |destruct l as [|? [|? [|? ?]]]]; discriminate.
Qed.

Lemma mapR_py_iter_error (l : list PyVal) (e : Exc) :
  mapR py_iter l = Raise e → ¬ is_native e.
Proof.
  induction l as [|v l IH]; simpl; [discriminate|].
  destruct (py_iter v) eqn:Hv.
  - destruct (mapR py_iter l); [discriminate|].
    intros [= <-]. by apply IH.
  - intros [= <-] [d ->]. by destruct v.
Qed.

Lemma split_columns_error (v : PyVal) (e : Exc) :
  split_columns v = Raise e → ¬ is_native e.
Proof.
  unfold split_columns.
  destruct (py_iter v) as [pairs|x] eqn:Hv.
  - destruct (mapR py_iter pairs) as [xss|x] eqn:Hm.
    + apply unpack2_error.
    + intros [= <-]. by eapply mapR_py_iter_error.
  - intros [= <-] [d ->]. by destruct v.
Qed.

(** Unpacking a materialized response raises built-in errors only. *)
Lemma process_response_value_error (c : Cursor) (v : PyVal) (many : bool)
    (e : Exc) :
  _stream_results c = false →
  (_process_response (OVal v) many c).1 = Raise e → ¬ is_native e.
Proof.
  intros Hs. destruct many; [by rewrite process_response_many|].
  unfold _process_response. unfold_monad. simpl.
  destruct (truthy v); simpl; [|discriminate]. rewrite Hs.
  destruct (unpack2 v) as [[rows header]|x] eqn:Hu; simpl.
  - destruct (truthy header); simpl; [|discriminate].
    destruct (split_columns header) as [[cols tys]|x] eqn:Hc; simpl;
      [discriminate|].
    intros [= <-]. by eapply split_columns_error.
  - intros [= <-]. by eapply unpack2_error.
Qed.

(** [_prepare] touches no attribute of the cursor but [_settings]. *)
Lemma prepare_self (w : World) :
  ∃ s, self (_prepare w).2 = set_settings_ref s (self w).
Proof.
  destruct w as [h c].
  destruct (decide (_external_tables c = ∅)) as [Ht|Ht].
  - destruct (_stream_results c) eqn:Hs.
    + rewrite prepare_streaming by done.
      destruct (streaming_target h c) as [l h1]. by exists (Some l).
    + rewrite prepare_buffered by done. exists (_settings c). by destruct c.
  - rewrite prepare_tables_raise by done. exists (_settings c). by destruct c.
Qed.

Lemma prepare_succeeds (h : gmap positive (gmap string PyVal)) (c : Cursor) :
  _external_tables c = ∅ →
  ∃ e kw h1 s,
    _prepare (mkWorld h c) = (Ok (e, kw), mkWorld h1 (set_settings_ref s c))
    ∧ kw_external_tables kw = None.
Proof.
  intros Ht. destruct (_stream_results c) eqn:Hs.
  - rewrite prepare_streaming by done.
    destruct (streaming_target h c) as [l h1]. by eexists _, _, _, _.
  - rewrite prepare_buffered by done.
    exists EExecute, (mkKwargs (_settings c) None (_types_check c)), h,
      (_settings c). by destruct c.
Qed.

Lemma after_prepare_server_raises srv op p wct many e kw (w1 : World) x :
  (∀ k, srv k = Raise x) →
  ∃ k, after_prepare srv op p wct many e kw w1
       = (Raise (translated x),
          mkWorld (heap w1)
            (set_client (Client_record k (_client (self w1))) (self w1))).
Proof.
  intros Hsrv. unfold after_prepare. eexists. rewrite Hsrv.
  by destruct x.
Qed.

(** When the client's entry point raises, the method raises too: the
    native error wrapped in [OperationalError], anything else as it is.
    The cursor is left RUNNING, with its client having recorded the call
    and, at most, [_settings] rebound by [_prepare]. *)
Lemma execute_server_raises srv op p (w : World) (x : Exc) :
  _state (self w) ≠ CURSOR_CLOSED →
  _external_tables (self w) = ∅ →
  (∀ k, srv k = Raise x) →
  ∃ s k h',
    execute srv op p w
    = (Raise (translated x),
       mkWorld h'
         (set_client (Client_record k (_client (self w)))
            (set_settings_ref s (set_state RUNNING (self w))))).
Proof.
  intros Hst Ht Hsrv. destruct w as [h c]. simpl in *.
  destruct (prepare_succeeds h (set_state RUNNING c) Ht)
    as (e & kw & h1 & s & Hp & _).
  rewrite (execute_run srv op p h c e kw _ Hst Hp).
  destruct (after_prepare_server_raises srv op p (Some true) false e kw
              (mkWorld h1 (set_settings_ref s (set_state RUNNING c))) x Hsrv)
    as [k ->].
  by exists s, k, h1.
Qed.

Lemma executemany_server_raises srv op p (w : World) (x : Exc) :
  _state (self w) ≠ CURSOR_CLOSED →
  _external_tables (self w) = ∅ →
  (∀ k, srv k = Raise x) →
  ∃ s k h',
    executemany srv op p w
    = (Raise (translated x),
       mkWorld h'
         (set_client (Client_record k (_client (self w)))
            (set_settings_ref s (set_state RUNNING (self w))))).
Proof.
  intros Hst Ht Hsrv. destruct w as [h c]. simpl in *.
  destruct (prepare_succeeds h (set_state RUNNING c) Ht)
    as (e & kw & h1 & s & Hp & _).
  rewrite (executemany_run srv op p h c e kw _ Hst Hp).
  destruct (after_prepare_server_raises srv op p None true e kw
              (mkWorld h1 (set_settings_ref s (set_state RUNNING c))) x Hsrv)
    as [k ->].
  by exists s, k, h1.
Qed.

(** In buffered mode, with a client that answers [execute] by a plain
    value, nothing after [_prepare] lets the native error out. *)
Lemma after_prepare_no_native srv op p wct many e kw (w1 : World) :
  _stream_results (self w1) = false →
  (∀ k it, srv k ≠ Ok (OIter it)) →
  ∀ x, (after_prepare srv op p wct many e kw w1).1 = Raise x → ¬ is_native x.
Proof.
  intros Hs Hval x. unfold after_prepare.
  destruct (srv _) as [[v|it]|y] eqn:Hk.
  - destruct (_process_response _ _ _) as [[[]|z] c3] eqn:Hpr; [discriminate|].
    simpl. intros [= <-].
    eapply (process_response_value_error _ v many).
    2: { by rewrite Hpr. }
    by destruct w1 as [h1 []].
  - by apply Hval in Hk.
  - destruct y; simpl; intros [= <-] [d Hd]; discriminate.
Qed.

Lemma after_prepare_many_no_native srv op p wct e kw (w1 : World) :
  ∀ x, (after_prepare srv op p wct true e kw w1).1 = Raise x → ¬ is_native x.
Proof.
  intros x. unfold after_prepare.
  destruct (srv _) as [resp|y] eqn:Hk.
  - by rewrite process_response_many.
  - destruct y; simpl; intros [= <-] [d Hd]; discriminate.
Qed.

Lemma execute_buffered_no_native srv op p (w : World) :
  _stream_results (self w) = false →
  (∀ k it, srv k ≠ Ok (OIter it)) →
  ∀ x, (execute srv op p w).1 = Raise x → ¬ is_native x.
Proof.
  intros Hs Hval x. destruct w as [h c]. simpl in Hs.
  destruct (decide (_state c = CURSOR_CLOSED)) as [Hst|Hst].
  { rewrite execute_closed by done. intros [= <-] [d Hd]. discriminate. }
  destruct (decide (_external_tables c = ∅)) as [Ht|Ht].
  2: { rewrite execute_tables_raise by done. intros [= <-] [d Hd]. discriminate. }
  rewrite (execute_run srv op p h c _ _ _ Hst
             (prepare_buffered h (set_state RUNNING c) Ht Hs)).
  by apply after_prepare_no_native.
Qed.

Lemma executemany_no_native srv op p (w : World) :
  ∀ x, (executemany srv op p w).1 = Raise x → ¬ is_native x.
Proof.
  intros x. destruct w as [h c].
  destruct (decide (_state c = CURSOR_CLOSED)) as [Hst|Hst].
  { rewrite executemany_closed by done. intros [= <-] [d Hd]. discriminate. }
  destruct (decide (_external_tables c = ∅)) as [Ht|Ht].
  2: { rewrite executemany_tables_raise by done.
       intros [= <-] [d Hd]. discriminate. }
  destruct (prepare_succeeds h (set_state RUNNING c) Ht)
    as (e & kw & h1 & s & Hp & _).
  rewrite (executemany_run srv op p h c e kw _ Hst Hp).
  apply after_prepare_many_no_native.
Qed.

(** C5 as stated fails.  After a first [execute] that failed,
    [fetchmany(1)] raises [TypeError], which is none of the listed
    errors; and in streaming mode a native error raised when the header
    is pulled from the lazy answer leaves [execute] untranslated. *)
Lemma C5_counterexample :
  (execute failing_server "SELECT x FROM t" VNone new_world).1
  = Raise (OperationalError
             (DriverError "Code: 60. Table default.t does not exist"))
  ∧ (fetchmany (Some 1)
       (self (execute failing_server "SELECT x FROM t" VNone new_world).2)).1
    = Raise TypeError
  ∧ (execute lazily_failing_server "SELECT x FROM t" VNone streaming_world).1
    = Raise (DriverError "Code: 210. Connection refused").
Proof. repeat split; vm_compute; reflexivity. Qed.

(** C5, amended.  On a CLOSED cursor [execute] and [executemany] raise
    the base [Error] with the text "Cursor is closed"; on a cursor in
    state NONE every fetch raises the base [Error] with "No query yet";
    when the client's entry point raises, the method raises as well, the
    native error wrapped in [OperationalError] with the original inside
    and any other exception unchanged, so nothing is swallowed; the
    native error never leaves [executemany], nor [execute] in buffered
    mode against a client that answers with a materialized value. *)
Theorem C5_adapter_errors (w : World) (srv : Server) (op : string) (p : PyVal) :
  (_state (self w) = CURSOR_CLOSED →
     execute srv op p w = (Raise (Error "Cursor is closed"), w)
     ∧ executemany srv op p w = (Raise (Error "Cursor is closed"), w))
  ∧ (_state (self w) = NONE → ∀ size,
     fetchone (self w) = (Raise (Error "No query yet"), self w)
     ∧ fetchmany size (self w) = (Raise (Error "No query yet"), self w)
     ∧ fetchall (self w) = (Raise (Error "No query yet"), self w))
  ∧ (_state (self w) ≠ CURSOR_CLOSED → _external_tables (self w) = ∅ →
     (∀ d, (∀ k, srv k = Raise (DriverError d)) →
        (execute srv op p w).1 = Raise (OperationalError (DriverError d))
        ∧ (executemany srv op p w).1 = Raise (OperationalError (DriverError d)))
     ∧ (∀ x, ¬ is_native x → (∀ k, srv k = Raise x) →
        (execute srv op p w).1 = Raise x
        ∧ (executemany srv op p w).1 = Raise x))
  ∧ (∀ x, (executemany srv op p w).1 = Raise x → ¬ is_native x)
  ∧ (_stream_results (self w) = false → (∀ k it, srv k ≠ Ok (OIter it)) →
     ∀ x, (execute srv op p w).1 = Raise x → ¬ is_native x).
Proof.
  split; [|split; [|split; [|split]]].
  - intros Hst. by rewrite execute_closed, executemany_closed.
  - intros Hst size. by apply fetch_before_query.
  - intros Hst Ht. split.
    + intros d Hsrv.
      destruct (execute_server_raises srv op p w _ Hst Ht Hsrv) as (?&?&?& ->).
      by destruct (executemany_server_raises srv op p w _ Hst Ht Hsrv)
        as (?&?&?& ->).
    + intros x Hx Hsrv.
      assert (translated x = x) as Hid.
      { destruct x; try reflexivity. destruct Hx. by eexists. }
      destruct (execute_server_raises srv op p w _ Hst Ht Hsrv) as (?&?&?& ->).
      destruct (executemany_server_raises srv op p w _ Hst Ht Hsrv)
        as (?&?&?& ->).
      by rewrite Hid.
  - apply executemany_no_native.
  - apply execute_buffered_no_native.
Qed.

Lemma C5_adapter_errors_witness :
  (execute failing_server "SELECT x FROM t" VNone new_world).1
  = Raise (OperationalError
             (DriverError "Code: 60. Table default.t does not exist"))
  ∧ fetchone (self new_world) = (Raise (Error "No query yet"), self new_world).
Proof.
  pose proof (C5_adapter_errors new_world failing_server "SELECT x FROM t" VNone)
    as (_ & Hnone & Hsrv & _).
  split.
  - refine (proj1 (proj1 (Hsrv _ _) _ _)).
    + discriminate.
    + reflexivity.
    + reflexivity.
  - exact (proj1 (Hnone eq_refl None)).
Defined.

(** ** C6: what [execute] resets *)




(** A buffered [execute] answered with rows and a header. *)
Lemma execute_buffered_ok srv op p (w : World) rows
    (cwt : list (string * string)) :
  _state (self w) ≠ CURSOR_CLOSED →
  _external_tables (self w) = ∅ →
  _stream_results (self w) = false →
  (∀ k, srv k = Ok (OVal (VTuple [VList rows; header_val cwt]))) →
  ∃ k,
    execute srv op p w
    = (Ok tt,
       mkWorld (heap w)
         (set_state FINISHED
            (with_result (columns_of cwt) (types_of cwt) (OVal (VList rows))
               (set_client (Client_record k (_client (self w)))
                  (set_state RUNNING (self w)))))).
Proof.
  intros Hst Ht Hs Hsrv. destruct w as [h c]. simpl in *.
  rewrite (execute_run srv op p h c _ _ _ Hst
             (prepare_buffered h (set_state RUNNING c) Ht Hs)).
  unfold after_prepare. rewrite Hsrv.
  rewrite process_response_buffered by done.
  eexists. reflexivity.
Qed.

(** A streaming [execute] answered with a lazy sequence that starts
    with the header. *)
Lemma execute_streaming_ok srv op p (w : World) rows e
    (cwt : list (string * string)) :
  _state (self w) ≠ CURSOR_CLOSED →
  _external_tables (self w) = ∅ →
  _stream_results (self w) = true →
  (∀ k, srv k = Ok (OIter (mkIter (header_val cwt :: rows) e))) →
  ∃ k s h',
    execute srv op p w
    = (Ok tt,
       mkWorld h'
         (set_state FINISHED
            (with_result (columns_of cwt) (types_of cwt) (OIter (mkIter rows e))
               (set_client (Client_record k (_client (self w)))
                  (set_settings_ref s (set_state RUNNING (self w))))))).
Proof.
  intros Hst Ht Hs Hsrv. destruct w as [h c]. simpl in *.
  pose proof (prepare_streaming h (set_state RUNNING c) Ht Hs) as Hp.
  destruct (streaming_target h (set_state RUNNING c)) as [l h1].
  rewrite (execute_run srv op p h c _ _ _ Hst Hp).
  unfold after_prepare. rewrite Hsrv.
  rewrite process_response_streaming by done.
  eexists _, _, _. reflexivity.
Qed.




(** ** C7: fetches partition the result set *)

Lemma rows_left_set_rows (c : Cursor) (l : list PyVal) :
  _state c ≠ NONE →
  rows_left (set_rows (if _stream_results c then OIter (mkIter l EndStop)
                       else OVal (VList l)) c) l.
Proof. intros Hst. split; [done|]. reflexivity. Qed.

Lemma is_row_tuples (R : list (list PyVal)) : Forall is_row (map VTuple R).
Proof. induction R as [|r R IH]; constructor; [by eexists|done]. Qed.

(** One fetch call returns what [answer_of] says and leaves the rows
    [rest_of] says. *)
Lemma fetch_step (f : FetchCall) (c : Cursor) (l : list PyVal) :
  rows_left c l → valid_size (_stream_results c) f →
  ∃ c', fetch f c = (Ok (answer_of f l), c')
        ∧ rows_left c' (rest_of f l)
        ∧ _stream_results c' = _stream_results c.
Proof.
  intros [Hst Hr] Hf.
  destruct (_stream_results c) eqn:Hs; destruct f as [|[size|]|]; try done;
    simpl in Hf |- *.
  - (* fetchone, streaming *)
    destruct l as [|row rest].
    + rewrite (fetchone_streaming_nil c) by done.
      eexists. split; [done|]. split; [|done].
      split; [done|]. simpl. by rewrite Hs.
    + rewrite (fetchone_streaming_cons c row rest EndStop) by done.
      eexists. split; [done|]. split; [|done].
      split; [done|]. simpl. by rewrite Hs.
  - (* fetchmany, streaming *)
    destruct Hf as [Hsize Hmax]. specialize (Hmax eq_refl).
    destruct (decide (Z.to_nat size ≤ length l)%nat) as [Hle|Hgt].
    + rewrite (fetchmany_streaming c l EndStop size) by done.
      eexists. split; [done|]. split; [|done].
      split; [done|]. simpl. by rewrite Hs.
    + rewrite (fetchmany_streaming_short c l size) by (done || lia).
      eexists. split; [by rewrite take_ge by lia|]. split; [|done].
      split; [done|]. simpl. rewrite Hs. by rewrite drop_ge by lia.
  - (* fetchall, streaming *)
    rewrite (fetchall_streaming c l) by done.
    eexists. split; [done|]. split; [|done].
    split; [done|]. simpl. by rewrite Hs.
  - (* fetchone, buffered *)
    destruct l as [|row rest].
    + rewrite (fetchone_buffered_nil c) by done.
      eexists. split; [done|]. split; [|done].
      split; [done|]. by rewrite Hs.
    + rewrite (fetchone_buffered_cons c row rest) by done.
      eexists. split; [done|]. split; [|done].
      split; [done|]. simpl. by rewrite Hs.
  - (* fetchmany, buffered *)
    destruct Hf as [Hsize _].
    rewrite (fetchmany_buffered c l size) by done.
    unfold slice_to, slice_from. rewrite slice_stop_nonneg by done.
    eexists. split; [done|]. split; [|done].
    split; [done|]. simpl. by rewrite Hs.
  - (* fetchall, buffered *)
    rewrite (fetchall_buffered c) by done. rewrite Hr.
    eexists. split; [done|]. split; [|done].
    split; [done|]. simpl. by rewrite Hs.
Qed.

(** What a call returns and what it leaves make up the rows it found. *)
Lemma delivered_rest (f : FetchCall) (l : list PyVal) :
  Forall is_row l →
  (delivered f (answer_of f l) ++ rest_of f l)%list = l.
Proof.
  intros Hrows. destruct f as [|size|]; simpl.
  - destruct l as [|row rest]; [done|].
    apply Forall_cons in Hrows as [[items ->] _]. done.
  - apply take_drop.
  - apply app_nil_r.
Qed.

Lemma rest_of_rows (f : FetchCall) (l : list PyVal) :
  Forall is_row l → Forall is_row (rest_of f l).
Proof.
  intros Hrows. destruct f as [|size|]; simpl.
  - by apply Forall_drop.
  - by apply Forall_drop.
  - constructor.
Qed.

(** A sequence of calls: each returns what [expected_answers] says, and
    the rows delivered followed by the rows left are the rows found. *)
Lemma fetches_run (fs : list FetchCall) (c : Cursor) (l : list PyVal) :
  rows_left c l → Forall is_row l →
  Forall (valid_size (_stream_results c)) fs →
  ∃ c' got,
    answers fs c = (Ok (expected_answers fs l), c')
    ∧ fetches fs c = (Ok got, c')
    ∧ (got ++ left_after fs l)%list = l
    ∧ rows_left c' (left_after fs l)
    ∧ _stream_results c' = _stream_results c.
Proof.
  revert c l. induction fs as [|f fs IH]; intros c l Hl Hrows Hfs.
  - exists c, []. split; [done|]. split; [done|]. split; [done|].
    split; [exact Hl|done].
  - apply Forall_cons in Hfs as [Hf Hfs].
    destruct (fetch_step f c l Hl Hf) as (c1 & Hrun & Hl1 & Hs1).
    rewrite <- Hs1 in Hfs.
    destruct (IH c1 (rest_of f l) Hl1 (rest_of_rows f l Hrows) Hfs)
      as (c2 & got & Hans & Hrest & Happ & Hl2 & Hs2).
    exists c2, (delivered f (answer_of f l) ++ got)%list.
    cbn [answers fetches expected_answers left_after]. unfold_monad.
    rewrite Hrun, Hans, Hrest.
    split; [done|]. split; [done|]. split; [|split; [done|congruence]].
    rewrite <- app_assoc, Happ. by apply delivered_rest.
Qed.

Lemma fetches_app (fs gs : list FetchCall) (c c1 : Cursor) got :
  fetches fs c = (Ok got, c1) →
  fetches (fs ++ gs) c
  = match fetches gs c1 with
    | (Ok more, c2) => (Ok (got ++ more)%list, c2)
    | (Raise e, c2) => (Raise e, c2)
    end.
Proof.
  revert c got. induction fs as [|f fs IH]; intros c got.
  - intros [= <- <-]. simpl. by destruct (fetches gs c) as [[more|e] c2].
  - cbn [fetches app]. unfold_monad.
    destruct (fetch f c) as [[o|e] c']; [|discriminate].
    destruct (fetches fs c') as [[more|e] c''] eqn:Hfs; [|discriminate].
    intros [= <- <-]. rewrite (IH c' more Hfs).
    destruct (fetches gs c'') as [[more'|e] c2]; [|done].
    by rewrite app_assoc.
Qed.

Lemma fetchall_rows_left (c : Cursor) (l : list PyVal) :
  rows_left c l →
  ∃ c2, fetchall c = (Ok (OVal (VList l)), c2) ∧ rows_left c2 [].
Proof.
  intros [Hst Hr]. destruct (_stream_results c) eqn:Hs.
  - rewrite (fetchall_streaming c l) by done.
    eexists. split; [done|]. split; [done|]. simpl. by rewrite Hs.
  - rewrite (fetchall_buffered c) by done. rewrite Hr.
    eexists. split; [done|]. split; [done|]. simpl. by rewrite Hs.
Qed.

(** A successful [execute], in either mode, leaves exactly the rows of
    the response to be fetched. *)
Lemma execute_rows_left srv op p (w : World) (l : list PyVal)
    (cwt : list (string * string)) :
  _state (self w) ≠ CURSOR_CLOSED →
  _external_tables (self w) = ∅ →
  (∀ k, srv k = if _stream_results (self w)
                then Ok (OIter (mkIter (header_val cwt :: l) EndStop))
                else Ok (OVal (VTuple [VList l; header_val cwt]))) →
  (execute srv op p w).1 = Ok tt
  ∧ rows_left (self (execute srv op p w).2) l.
Proof.
  intros Hst Ht Hsrv. destruct (_stream_results (self w)) eqn:Hs.
  - destruct (execute_streaming_ok srv op p w l EndStop cwt Hst Ht Hs Hsrv)
      as (k & s & h' & ->).
    split; [done|]. split; [done|]. simpl. by rewrite Hs.
  - destruct (execute_buffered_ok srv op p w l cwt Hst Ht Hs Hsrv) as [k ->].
    split; [done|]. split; [done|]. simpl. by rewrite Hs.
Qed.

Lemma execute_keeps_mode srv op p (w : World) (l : list PyVal)
    (cwt : list (string * string)) :
  _state (self w) ≠ CURSOR_CLOSED →
  _external_tables (self w) = ∅ →
  (∀ k, srv k = if _stream_results (self w)
                then Ok (OIter (mkIter (header_val cwt :: l) EndStop))
                else Ok (OVal (VTuple [VList l; header_val cwt]))) →
  _stream_results (self (execute srv op p w).2) = _stream_results (self w).
Proof.
  intros Hst Ht Hsrv. destruct (_stream_results (self w)) eqn:Hs.
  - by destruct (execute_streaming_ok srv op p w l EndStop cwt Hst Ht Hs Hsrv)
      as (k & s & h' & ->).
  - by destruct (execute_buffered_ok srv op p w l cwt Hst Ht Hs Hsrv)
      as [k ->].
Qed.

(** The rows a sequence of calls is to deliver in all. *)
Lemma fetched_left (fs : list FetchCall) (l got : list PyVal) :
  (got ++ left_after fs l)%list = l →
  got = take (length l - length (left_after fs l)) l.
Proof.
  intros H.
  assert (length l = (length got + length (left_after fs l))%nat) as Hlen.
  { rewrite <- H at 1. apply length_app. }
  replace (length l - length (left_after fs l))%nat with (length got) by lia.
  rewrite <- H. by rewrite take_app_length.
Qed.

(** C7 as stated fails in streaming mode for a size above
    [sys.maxsize]: the size is explicit and not negative, yet
    [fetchmany] raises [ValueError] and the calls deliver nothing. *)
Lemma C7_counterexample :
  0 ≤ sys_maxsize + 1
  ∧ _state (self streaming_finished) = FINISHED
  ∧ (fetches [FetchMany (Some (sys_maxsize + 1)); FetchAll]
       (self streaming_finished)).1 = Raise ValueError.
Proof. repeat split; vm_compute; (reflexivity || discriminate). Qed.

(** C7, amended.  After a successful [execute] whose result set is [R],
    buffered or streamed, take any sequence [fs] of [fetchone],
    [fetchmany(k)] and [fetchall] calls with [0 <= k], and in streaming
    mode [k <= sys.maxsize].  Every call succeeds and returns the next
    rows: [fetchone] the next row or the null marker when none is left,
    [fetchmany(k)] the next [k] rows or all that are left, [fetchall]
    all that are left.  The rows delivered, concatenated, followed by
    the rows left are [R] in its order; a [fetchall] after [fs] returns
    exactly the rows left; and [fs] followed by [fetchall] delivers the
    whole of [R]. *)
Theorem C7_fetches_partition_result (w : World) (srv : Server) (op : string)
    (p : PyVal) (R : list (list PyVal)) (cwt : list (string * string))
    (fs : list FetchCall) :
  _state (self w) ≠ CURSOR_CLOSED →
  _external_tables (self w) = ∅ →
  (∀ k, srv k = if _stream_results (self w)
                then Ok (OIter (mkIter (header_val cwt :: map VTuple R) EndStop))
                else Ok (OVal (VTuple [VList (map VTuple R); header_val cwt]))) →
  Forall (valid_size (_stream_results (self w))) fs →
  let out := execute srv op p w in
  let rows := map VTuple R in
  let got := take (length rows - length (left_after fs rows)) rows in
  out.1 = Ok tt
  ∧ (got ++ left_after fs rows)%list = rows
  ∧ ∃ c1 c2,
      answers fs (self out.2) = (Ok (expected_answers fs rows), c1)
      ∧ fetches fs (self out.2) = (Ok got, c1)
      ∧ fetchall c1 = (Ok (OVal (VList (left_after fs rows))), c2)
      ∧ fetches (fs ++ [FetchAll]) (self out.2) = (Ok rows, c2).
Proof.
  intros Hst Ht Hsrv Hfs out rows got. subst out.
  destruct (execute_rows_left srv op p w rows cwt Hst Ht Hsrv)
    as [Hok Hleft].
  pose proof (execute_keeps_mode srv op p w rows cwt Hst Ht Hsrv) as Hmode.
  rewrite <- Hmode in Hfs.
  destruct (fetches_run fs _ rows Hleft (is_row_tuples R) Hfs)
    as (c1 & got' & Hans & Hrun & Happ & Hleft1 & _).
  assert (got' = got) as -> by by apply fetched_left.
  destruct (fetchall_rows_left c1 _ Hleft1) as (c2 & Hall & _).
  split; [exact Hok|]. split; [exact Happ|].
  exists c1, c2. split; [exact Hans|]. split; [exact Hrun|].
  split; [exact Hall|].
  rewrite (fetches_app fs [FetchAll] _ c1 _ Hrun).
  cbn [fetches fetch]. unfold_monad. rewrite Hall. cbn [delivered].
  by rewrite app_nil_r, Happ.
Qed.

Lemma C7_fetches_partition_result_witness :
  ∃ c1 c2,
    answers [FetchOne; FetchMany (Some 5)] (self streaming_finished)
    = (Ok [OVal (VTuple [VInt 1]); OVal (VList [VTuple [VInt 2]])], c1)
    ∧ fetchall c1 = (Ok (OVal (VList [])), c2).
Proof.
  destruct (C7_fetches_partition_result streaming_world streaming_server
              "SELECT x FROM t" VNone [[VInt 1]; [VInt 2]] sample_header
              [FetchOne; FetchMany (Some 5)])
    as (_ & _ & c1 & c2 & Hans & _ & Hall & _).
  - discriminate.
  - reflexivity.
  - intros k. reflexivity.
  - repeat constructor; simpl; try lia. intros _. by vm_compute.
  - exists c1, c2. split; [exact Hans|exact Hall].
Defined.

(** ** C8: streaming mode *)

Lemma answers_app (fs gs : list FetchCall) (c c1 : Cursor) got :
  answers fs c = (Ok got, c1) →
  answers (fs ++ gs) c
  = match answers gs c1 with
    | (Ok more, c2) => (Ok (got ++ more)%list, c2)
    | (Raise e, c2) => (Raise e, c2)
    end.
Proof.
  revert c got. induction fs as [|f fs IH]; intros c got.
  - intros [= <- <-]. simpl. by destruct (answers gs c) as [[more|e] c2].
  - cbn [answers app]. unfold_monad.
    destruct (fetch f c) as [[o|e] c']; [|discriminate].
    destruct (answers fs c') as [[more|e] c''] eqn:Hfs; [|discriminate].
    intros [= <- <-]. rewrite (IH c' more Hfs).
    by destruct (answers gs c'') as [[more'|e] c2].
Qed.

(** [fetchone] called once per row returns the rows in order and
    exhausts the source. *)
Lemma fetchone_each_row (R : list (list PyVal)) (c : Cursor) :
  _state c ≠ NONE →
  _stream_results c = true →
  _rows c = OIter (mkIter (map VTuple R) EndStop) →
  ∃ c', answers (replicate (length R) FetchOne) c
        = (Ok (map (λ r, OVal (VTuple r)) R), c')
        ∧ rows_left c' [] ∧ _stream_results c' = true.
Proof.
  revert c. induction R as [|r R IH]; intros c Hst Hs Hr.
  - exists c. split; [done|]. split; [|done]. split; [done|]. by rewrite Hs.
  - destruct (IH (set_rows (OIter (mkIter (map VTuple R) EndStop)) c))
      as (c' & Hrun & Hleft & Hs'); [done..|].
    exists c'. split; [|done].
    cbn [length replicate answers fetch]. unfold_monad.
    rewrite (fetchone_streaming_cons c (VTuple r) (map VTuple R) EndStop)
      by done.
    by rewrite Hrun.
Qed.

(** Once the source is exhausted every fetch with a valid size comes
    back empty. *)
Lemma answers_exhausted (fs : list FetchCall) (c : Cursor) :
  rows_left c [] → _stream_results c = true → Forall (valid_size true) fs →
  ∃ c', answers fs c = (Ok (map empty_answer fs), c')
        ∧ rows_left c' [] ∧ _stream_results c' = true.
Proof.
  revert c. induction fs as [|f fs IH]; intros c Hleft Hs Hfs.
  - by exists c.
  - apply Forall_cons in Hfs as [Hf Hfs].
    destruct Hleft as [Hst Hr]. rewrite Hs in Hr.
    assert (∃ c1, fetch f c = (Ok (empty_answer f), c1)
                  ∧ rows_left c1 [] ∧ _stream_results c1 = true)
      as (c1 & Hrun & Hleft1 & Hs1).
    { destruct f as [|[size|]|]; simpl in Hf |- *; [| |done|].
      - rewrite (fetchone_streaming_nil c) by done.
        eexists. split; [done|]. split; [|done]. split; [done|].
        simpl. by rewrite Hs.
      - destruct Hf as [Hsize Hmax]. specialize (Hmax eq_refl).
        destruct (decide (Z.to_nat size ≤ 0)%nat) as [Hle|Hgt].
        + rewrite (fetchmany_streaming c [] EndStop size) by done.
          rewrite take_nil, drop_nil.
          eexists. split; [done|]. split; [|done]. split; [done|].
          simpl. by rewrite Hs.
        + rewrite (fetchmany_streaming_short c [] size)
            by (done || simpl; lia).
          eexists. split; [done|]. split; [|done]. split; [done|].
          simpl. by rewrite Hs.
      - rewrite (fetchall_streaming c []) by done.
        eexists. split; [done|]. split; [|done]. split; [done|].
        simpl. by rewrite Hs. }
    destruct (IH c1 Hleft1 Hs1 Hfs) as (c' & Hrest & Hleft' & Hs').
    exists c'. split; [|done].
    cbn [answers map]. unfold_monad. by rewrite Hrun, Hrest.
Qed.

(** C8 as stated fails on its last clause: after [fetchall] has drained
    the stream, [fetchmany()] with no size is a fetch that does not come
    back empty, it raises [ValueError]. *)
Lemma C8_counterexample :
  (fetchall (self streaming_finished)).1 = Ok (OVal (VList sample_rows))
  ∧ (fetchmany None (fetchall (self streaming_finished)).2).1
    = Raise ValueError.
Proof. split; vm_compute; reflexivity. Qed.

(** C8, amended.  In streaming mode, for a lazy answer that yields the
    header and then the rows [R], [execute] takes the header alone to set
    columns and types and keeps the remaining sequence, still lazy, as
    the row source; [fetchone] called once per row returns the rows in
    order and then the null marker; [fetchall] called instead returns the
    list of all rows, after which every [fetchone], [fetchall] and
    [fetchmany(k)] with [0 <= k <= sys.maxsize] returns the null marker
    or an empty list. *)
Theorem C8_streaming_fetch (w : World) (srv : Server) (op : string)
    (p : PyVal) (R : list (list PyVal)) (cwt : list (string * string))
    (fs : list FetchCall) :
  _state (self w) ≠ CURSOR_CLOSED →
  _external_tables (self w) = ∅ →
  _stream_results (self w) = true →
  (∀ k, srv k = Ok (OIter (mkIter (header_val cwt :: map VTuple R) EndStop))) →
  Forall (valid_size true) fs →
  let out := execute srv op p w in
  let c := self out.2 in
  out.1 = Ok tt
  ∧ _columns c = columns_of cwt
  ∧ _types c = types_of cwt
  ∧ _rows c = OIter (mkIter (map VTuple R) EndStop)
  ∧ (answers (replicate (length R) FetchOne ++ [FetchOne]) c).1
    = Ok (map (λ r, OVal (VTuple r)) R ++ [OVal VNone])%list
  ∧ ∃ c1, fetchall c = (Ok (OVal (VList (map VTuple R))), c1)
          ∧ (answers fs c1).1 = Ok (map empty_answer fs).
Proof.
  intros Hst Ht Hs Hsrv Hfs out c. subst c out.
  destruct (execute_streaming_ok srv op p w (map VTuple R) EndStop cwt
              Hst Ht Hs Hsrv) as (k & s & h' & ->).
  cbn [fst snd self].
  set (c := set_state FINISHED _).
  assert (Hc : _state c ≠ NONE) by done.
  assert (Hsc : _stream_results c = true) by exact Hs.
  assert (Hrc : _rows c = OIter (mkIter (map VTuple R) EndStop)) by done.
  split; [done|]. split; [done|]. split; [done|]. split; [done|].
  split.
  - destruct (fetchone_each_row R c Hc Hsc Hrc) as (c' & Hrun & Hleft & Hs').
    rewrite (answers_app _ [FetchOne] c c' _ Hrun).
    destruct (answers_exhausted [FetchOne] c' Hleft Hs') as (c2 & -> & _).
    + by repeat constructor.
    + done.
  - assert (Hleft : rows_left c (map VTuple R)).
    { split; [done|]. by rewrite Hsc. }
    destruct (fetchall_rows_left c _ Hleft) as (c1 & Hall & Hleft1).
    exists c1. split; [done|].
    assert (Hs1 : _stream_results c1 = true).
    { rewrite (fetchall_streaming c (map VTuple R)) in Hall by done.
      by injection Hall as <-. }
    by destruct (answers_exhausted fs c1 Hleft1 Hs1 Hfs) as (c2 & -> & _).
Qed.

Lemma C8_streaming_fetch_witness :
  (answers [FetchOne; FetchOne; FetchOne] (self streaming_finished)).1
  = Ok [OVal (VTuple [VInt 1]); OVal (VTuple [VInt 2]); OVal VNone]
  ∧ ∃ c1, fetchall (self streaming_finished)
          = (Ok (OVal (VList [VTuple [VInt 1]; VTuple [VInt 2]])), c1)
          ∧ (answers [FetchMany (Some 5); FetchOne; FetchAll] c1).1
            = Ok [OVal (VList []); OVal VNone; OVal (VList [])].
Proof.
  destruct (C8_streaming_fetch streaming_world streaming_server
              "SELECT x FROM t" VNone [[VInt 1]; [VInt 2]] sample_header
              [FetchMany (Some 5); FetchOne; FetchAll])
    as (_ & _ & _ & _ & Hone & c1 & Hall & Hrest).
  - discriminate.
  - reflexivity.
  - reflexivity.
  - intros k. reflexivity.
  - repeat constructor; simpl; try lia. intros _. by vm_compute.
  - split; [exact Hone|]. exists c1. split; [exact Hall|exact Hrest].
Defined.

(** ** C9 and C10: the staged options *)

Lemma process_response_frame (response : Obj) (many : bool) (c : Cursor) :
  options_of (_process_response response many c).2 = options_of c.
Proof.
  unfold _process_response. unfold_monad. simpl.
  destruct many; [reflexivity|]. simpl.
  repeat case_match; simplify_eq/=; reflexivity.
Qed.

Lemma after_prepare_frame srv op p wct many e kw (w1 : World) :
  heap (after_prepare srv op p wct many e kw w1).2 = heap w1
  ∧ options_of (self (after_prepare srv op p wct many e kw w1).2)
    = options_of (self w1).
Proof.
  unfold after_prepare.
  destruct (srv _) as [resp|x].
  - pose proof (process_response_frame resp many
      (set_client (Client_record
         (mkCall e op p wct (dict_at (heap w1) <$> kw_settings kw)
            (kw_external_tables kw) (kw_types_check kw))
         (_client (self w1))) (self w1))) as Hf.
    destruct (_process_response _ _ _) as [[[]|z] c3]; cbn [snd] in Hf;
      (split; [reflexivity|]); cbn [snd self];
      (transitivity (options_of c3); [reflexivity|]); by rewrite Hf.
  - by destruct x.
Qed.

Lemma dict_truthy_false (d : gmap string PyVal) :
  dict_truthy d = false → d = ∅.
Proof.
  unfold dict_truthy. destruct (map_to_list d) eqn:E; [|done].
  intros _. by apply map_to_list_empty_iff.
Qed.

Lemma dict_truthy_true (d : gmap string PyVal) :
  d ≠ ∅ → dict_truthy d = true.
Proof.
  intros Hne. unfold dict_truthy. destruct (map_to_list d) eqn:E; [|done].
  by apply map_to_list_empty_iff in E.
Qed.

Lemma dict_at_insert (h : gmap positive (gmap string PyVal)) l d :
  dict_at (<[l := d]> h) l = d.
Proof. unfold dict_at. by rewrite lookup_insert_eq. Qed.

Lemma process_response_state (response : Obj) (many : bool) (c : Cursor) :
  _state (_process_response response many c).2 = _state c.
Proof.
  unfold _process_response. unfold_monad. simpl.
  destruct many; [reflexivity|]. simpl.
  repeat case_match; simplify_eq/=; reflexivity.
Qed.

Lemma after_prepare_not_closed srv op p wct many e kw (w1 : World) :
  _state (self w1) ≠ CURSOR_CLOSED →
  _state (self (after_prepare srv op p wct many e kw w1).2) ≠ CURSOR_CLOSED.
Proof.
  intros Hst. unfold after_prepare.
  destruct (srv _) as [resp|x].
  - pose proof (process_response_state resp many
      (set_client (Client_record
         (mkCall e op p wct (dict_at (heap w1) <$> kw_settings kw)
            (kw_external_tables kw) (kw_types_check kw))
         (_client (self w1))) (self w1))) as Hf.
    destruct (_process_response _ _ _) as [[[]|z] c3]; cbn [snd] in Hf;
      cbn [snd self]; [done|]. by rewrite Hf.
  - by destruct x.
Qed.

Ltac use_after_prepare_frame :=
  match goal with
  | |- context [after_prepare ?a ?b ?c ?d ?e ?f ?g ?h] =>
      destruct (after_prepare_frame a b c d e f g h) as [-> ->]
  end.

(** What one query does to the store and to the staged options: either
    nothing, or, when a streaming [_prepare] is reached, the write of
    ["max_block_size"] into the dictionary chosen by [streaming_target]. *)
Lemma query_effect (q : QueryCall) (w : World) :
  let w' := (query q w).2 in
  (heap w' = heap w ∧ options_of (self w') = options_of (self w)
   ∧ (_stream_results (self w) = true →
      _state (self w) = CURSOR_CLOSED ∨ _external_tables (self w) ≠ ∅))
  ∨ (_state (self w) ≠ CURSOR_CLOSED ∧ _external_tables (self w) = ∅
     ∧ _stream_results (self w) = true
     ∧ let '(l, h1) := streaming_target (heap w) (self w) in
       heap w'
       = <[l := <["max_block_size" := VInt (_max_row_buffer (self w))]>
                  (dict_at h1 l)]> h1
       ∧ options_of (self w')
         = (_external_tables (self w), _types_check (self w), true,
            _max_row_buffer (self w), Some l)).
Proof.
  destruct w as [h c]. cbn zeta. cbn [heap self].
  destruct (decide (_state c = CURSOR_CLOSED)) as [Hst|Hst].
  { left. destruct q; cbn [query];
      rewrite ?execute_closed, ?executemany_closed by done; auto. }
  destruct (decide (_external_tables c = ∅)) as [Ht|Ht].
  2: { left. destruct q; cbn [query];
         rewrite ?execute_tables_raise, ?executemany_tables_raise by done;
         auto. }
  destruct (_stream_results c) eqn:Hs.
  - right. split; [done|]. split; [done|]. split; [done|].
    pose proof (prepare_streaming h (set_state RUNNING c) Ht Hs) as Hp.
    change (streaming_target h (set_state RUNNING c))
      with (streaming_target h c) in Hp.
    destruct (streaming_target h c) as [l h1].
    destruct q as [srv op p|srv op p]; cbn [query].
    + rewrite (execute_run srv op p h c _ _ _ Hst Hp).
      use_after_prepare_frame.
      split; [done|]. unfold options_of. simpl. by rewrite Hs.
    + rewrite (executemany_run srv op p h c _ _ _ Hst Hp).
      use_after_prepare_frame.
      split; [done|]. unfold options_of. simpl. by rewrite Hs.
  - left.
    pose proof (prepare_buffered h (set_state RUNNING c) Ht Hs) as Hp.
    destruct q as [srv op p|srv op p]; cbn [query].
    + rewrite (execute_run srv op p h c _ _ _ Hst Hp).
      use_after_prepare_frame.
      by auto.
    + rewrite (executemany_run srv op p h c _ _ _ Hst Hp).
      use_after_prepare_frame.
      by auto.
Qed.

Lemma streaming_target_view (h : gmap positive (gmap string PyVal))
    (c : Cursor) (v : PyVal) :
  let '(l, h1) := streaming_target h c in
  dict_at (<[l := <["max_block_size" := v]> (dict_at h1 l)]> h1) l
  = <["max_block_size" := v]> (settings_view (mkWorld h c)).
Proof.
  unfold streaming_target, settings_view. cbn [self heap].
  destruct (_settings c) as [l|].
  - destruct (dict_truthy (dict_at h l)) eqn:Hd.
    + by rewrite dict_at_insert.
    + rewrite !dict_at_insert. by rewrite (dict_truthy_false _ Hd).
  - by rewrite !dict_at_insert.
Qed.

(** One query leaves the tables, the flags and the buffer size alone;
    the settings the cursor refers to are the same afterwards, or the
    same with ["max_block_size"] written; and in buffered mode neither
    the reference nor the store changes. *)
Lemma query_frame (q : QueryCall) (w : World) :
  let w' := (query q w).2 in
  _external_tables (self w') = _external_tables (self w)
  ∧ _types_check (self w') = _types_check (self w)
  ∧ _stream_results (self w') = _stream_results (self w)
  ∧ _max_row_buffer (self w') = _max_row_buffer (self w)
  ∧ (settings_view w' = settings_view w
     ∨ settings_view w'
       = <["max_block_size" := VInt (_max_row_buffer (self w))]> (settings_view w))
  ∧ (_stream_results (self w) = false →
     _settings (self w') = _settings (self w) ∧ heap w' = heap w).
Proof.
  pose proof (query_effect q w) as He. cbn zeta in *.
  destruct (query q w) as [r w']. cbn [snd] in *.
  destruct He as [(Hh & Ho & _)|(Hst & Ht & Hs & Hq)].
  - unfold options_of in Ho. injection Ho as ? ? ? ? ?.
    assert (_settings (self w') = _settings (self w)) as Hset by congruence.
    repeat (split; [congruence|]). split; [|done].
    left. unfold settings_view. by rewrite Hset, Hh.
  - pose proof (streaming_target_view (heap w) (self w)
                  (VInt (_max_row_buffer (self w)))) as Hv.
    destruct (streaming_target (heap w) (self w)) as [l h1].
    destruct Hq as [Hh Ho].
    unfold options_of in Ho. injection Ho as ? ? ? ? ?.
    assert (_settings (self w') = Some l) as Hset by congruence.
    repeat (split; [congruence|]). split; [|congruence].
    right. unfold settings_view at 1. rewrite Hset, Hh, Hv.
    by destruct w.
Qed.

Lemma queries_frame (qs : list QueryCall) (w : World) :
  let w' := queries qs w in
  _external_tables (self w') = _external_tables (self w)
  ∧ _types_check (self w') = _types_check (self w)
  ∧ _stream_results (self w') = _stream_results (self w)
  ∧ _max_row_buffer (self w') = _max_row_buffer (self w)
  ∧ (∀ key, key ≠ "max_block_size" →
       settings_view w' !! key = settings_view w !! key)
  ∧ (_stream_results (self w) = false →
     _settings (self w') = _settings (self w) ∧ heap w' = heap w).
Proof.
  cbn zeta. revert w. induction qs as [|q qs IH]; intros w; [done|].
  cbn [queries].
  destruct (IH (query q w).2) as (H1 & H2 & H3 & H4 & H5 & H6).
  destruct (query_frame q w) as (G1 & G2 & G3 & G4 & G5 & G6).
  repeat (split; [congruence|]). split.
  - intros key Hkey. rewrite H5 by done.
    destruct G5 as [-> | ->]; [done|]. by rewrite lookup_insert_ne.
  - intros Hs. destruct (G6 Hs) as [E1 E2].
    destruct H6 as [E3 E4]; [congruence|]. split; congruence.
Qed.

(** Registering twice under one name keeps the second entry only. *)
Lemma set_external_table_twice (c : Cursor) (name : string)
    (s1 d1 s2 d2 : PyVal) :
  let c' := (set_external_table name s2 d2
               (set_external_table name s1 d1 c).2).2 in
  _external_tables c' !! name = Some (s2, d2)
  ∧ _external_tables c' = _external_tables (set_external_table name s2 d2 c).2.
Proof.
  cbn. split; [apply lookup_insert_eq|apply insert_insert_eq].
Qed.

(** C9 as stated fails for the settings map: a streaming [execute]
    overwrites the staged value of ["max_block_size"], which the caller
    never changed. *)
Lemma C9_counterexample :
  settings_view tuned_world !! "max_block_size" = Some (VInt 5)
  ∧ settings_view (execute streaming_server "SELECT x FROM t" VNone
                     tuned_world).2 !! "max_block_size"
    = Some (VInt 100).
Proof. split; vm_compute; reflexivity. Qed.

(** C9, amended.  Across any number of [execute] and [executemany]
    calls, whatever their outcome, the external-table map, the
    types-check flag, the streaming flag and the max-row-buffer stay as
    staged; the settings are never cleared: every key other than
    ["max_block_size"] keeps its value, and in buffered mode the settings
    reference and the dictionaries are not touched at all; and
    registering an external table again under a used name replaces the
    earlier entry. *)
Theorem C9_options_persist (w : World) (qs : list QueryCall) :
  let w' := queries qs w in
  _external_tables (self w') = _external_tables (self w)
  ∧ _types_check (self w') = _types_check (self w)
  ∧ _stream_results (self w') = _stream_results (self w)
  ∧ _max_row_buffer (self w') = _max_row_buffer (self w)
  ∧ (∀ key, key ≠ "max_block_size" →
       settings_view w' !! key = settings_view w !! key)
  ∧ (_stream_results (self w) = false →
     _settings (self w') = _settings (self w) ∧ heap w' = heap w)
  ∧ (∀ c name s1 d1 s2 d2,
       let c' := (set_external_table name s2 d2
                    (set_external_table name s1 d1 c).2).2 in
       _external_tables c' !! name = Some (s2, d2)
       ∧ _external_tables c'
         = _external_tables (set_external_table name s2 d2 c).2).
Proof.
  intros w'. subst w'.
  destruct (queries_frame qs w) as (H1 & H2 & H3 & H4 & H5 & H6).
  repeat (split; [assumption|]).
  intros c name s1 d1 s2 d2. apply set_external_table_twice.
Qed.

Lemma C9_options_persist_witness :
  let qs := [Execute streaming_server "SELECT x FROM t" VNone;
             ExecuteMany failing_server "INSERT INTO t VALUES" VNone] in
  let w1 := queries qs staged_world in
  let w2 := queries [Execute buffered_server "SELECT x FROM t" VNone;
                     ExecuteMany failing_server "INSERT INTO t VALUES" VNone]
              buffered_tuned_world in
  (_types_check (self w1) = true
   ∧ _stream_results (self w1) = true
   ∧ _max_row_buffer (self w1) = 100
   ∧ settings_view w1 !! "max_threads" = Some (VInt 2))
  ∧ (_max_row_buffer (self w2) = 7
     ∧ _settings (self w2) = Some 1%positive
     ∧ heap w2 = {[ 1%positive := {[ "max_block_size" := VInt 5 ]} ]}).
Proof.
  intros qs w1 w2. split.
  - destruct (C9_options_persist staged_world qs)
      as (_ & Hcheck & Hstream & Hbuffer & Hkeys & _).
    fold w1 in Hcheck, Hstream, Hbuffer, Hkeys.
    split; [by rewrite Hcheck|]. split; [by rewrite Hstream|].
    split; [by rewrite Hbuffer|].
    rewrite (Hkeys "max_threads") by discriminate.
    vm_compute. reflexivity.
  - destruct (C9_options_persist buffered_tuned_world
                [Execute buffered_server "SELECT x FROM t" VNone;
                 ExecuteMany failing_server "INSERT INTO t VALUES" VNone])
      as (_ & _ & _ & Hbuffer & _ & Hsame & _).
    fold w2 in Hbuffer, Hsame.
    destruct Hsame as [Hsettings Hheap]; [reflexivity|].
    split; [by rewrite Hbuffer|]. split; [by rewrite Hsettings|].
    by rewrite Hheap.
Defined.

(** ** C10: the forced [max_block_size] *)

Lemma query_not_closed (q : QueryCall) (w : World) :
  _state (self w) ≠ CURSOR_CLOSED →
  _state (self (query q w).2) ≠ CURSOR_CLOSED.
Proof.
  intros Hst. destruct w as [h c]. cbn [self] in Hst.
  destruct (decide (_external_tables c = ∅)) as [Ht|Ht].
  2: { destruct q; cbn [query];
         rewrite ?execute_tables_raise, ?executemany_tables_raise by done;
         done. }
  destruct (prepare_succeeds h (set_state RUNNING c) Ht)
    as (e & kw & h1 & s & Hp & _).
  destruct q as [srv op p|srv op p]; cbn [query].
  - rewrite (execute_run srv op p h c e kw _ Hst Hp).
    by apply after_prepare_not_closed.
  - rewrite (executemany_run srv op p h c e kw _ Hst Hp).
    by apply after_prepare_not_closed.
Qed.

Lemma queries_not_closed (qs : list QueryCall) (w : World) :
  _state (self w) ≠ CURSOR_CLOSED →
  _state (self (queries qs w)) ≠ CURSOR_CLOSED.
Proof.
  revert w. induction qs as [|q qs IH]; intros w Hst; [done|].
  cbn [queries]. by apply IH, query_not_closed.
Qed.

Lemma process_response_client (response : Obj) (many : bool) (c : Cursor) :
  _client (_process_response response many c).2 = _client c.
Proof.
  unfold _process_response. unfold_monad. simpl.
  destruct many; [reflexivity|]. simpl.
  repeat case_match; simplify_eq/=; reflexivity.
Qed.

(** A buffered [execute] that reaches the client hands it the content
    of the staged settings dictionary. *)
Lemma execute_buffered_records srv op p (w : World) :
  _state (self w) ≠ CURSOR_CLOSED →
  _external_tables (self w) = ∅ →
  _stream_results (self w) = false →
  ∃ k, calls (_client (self (execute srv op p w).2))
       = (calls (_client (self w)) ++ [k])%list
       ∧ entry k = EExecute
       ∧ settings k = dict_at (heap w) <$> _settings (self w).
Proof.
  intros Hst Ht Hs. destruct w as [h c]. cbn [self heap] in *.
  rewrite (execute_run srv op p h c _ _ _ Hst
             (prepare_buffered h (set_state RUNNING c) Ht Hs)).
  unfold after_prepare. cbn [heap self kw_settings kw_external_tables
                             kw_types_check].
  set (k := mkCall _ _ _ _ _ _ _).
  exists k. split; [|done].
  destruct (srv k) as [resp|x].
  - pose proof (process_response_client resp false
      (set_client (Client_record k (_client (set_state RUNNING c)))
         (set_state RUNNING c))) as Hc.
    destruct (_process_response _ _ _) as [[[]|z] c3]; cbn [snd] in Hc;
      cbn [snd self]; (transitivity (calls (_client c3)); [reflexivity|]);
      by rewrite Hc.
  - by destruct x.
Qed.

(** A streaming [execute] that reaches [_prepare]: where the key is
    written. *)
Lemma execute_streaming_effect srv op p (w : World) :
  _state (self w) ≠ CURSOR_CLOSED →
  _external_tables (self w) = ∅ →
  _stream_results (self w) = true →
  let '(l, h1) := streaming_target (heap w) (self w) in
  heap (execute srv op p w).2
  = <[l := <["max_block_size" := VInt (_max_row_buffer (self w))]>
             (dict_at h1 l)]> h1
  ∧ _settings (self (execute srv op p w).2) = Some l.
Proof.
  intros Hst Ht Hs.
  pose proof (query_effect (Execute srv op p) w) as He.
  cbn zeta in He. cbn [query] in He.
  destruct He as [(_ & _ & Hno)|(_ & _ & _ & He)].
  { by destruct (Hno Hs). }
  destruct (streaming_target (heap w) (self w)) as [l h1].
  destruct He as [Hh Ho]. split; [done|].
  unfold options_of in Ho. by injection Ho.
Qed.

(** C10 as stated fails for a caller who staged an empty dictionary: the
    cursor switches to a new dictionary, and the caller's own one, at
    address 1, is still empty after the streaming [execute]. *)
Lemma C10_counterexample :
  let w1 := (execute streaming_server "SELECT x FROM t" VNone
               empty_settings_world).2 in
  _settings (self empty_settings_world) = Some 1%positive
  ∧ heap w1 !! 1%positive = Some ∅
  ∧ _settings (self w1) = Some 2%positive
  ∧ settings_view w1 !! "max_block_size" = Some (VInt 100).
Proof. repeat split; vm_compute; reflexivity. Qed.

(** C10, amended.  A streaming [execute] that reaches [_prepare] writes
    ["max_block_size"], set to the row buffer size, into the settings the
    cursor refers to.  When a non-empty dictionary was staged, the write
    is made in place, in the caller's own dictionary; when none or an
    empty one was staged, the cursor switches to a new dictionary that
    holds this key only, and no dictionary of the store is changed.
    Afterwards, with streaming switched off, any number of queries leave
    the reference and the store as they are, so the value stays, and a
    buffered [execute] hands the client settings that contain it. *)
Theorem C10_streaming_settings (w : World) (srv : Server) (op : string)
    (p : PyVal) :
  _state (self w) ≠ CURSOR_CLOSED →
  _external_tables (self w) = ∅ →
  _stream_results (self w) = true →
  let w1 := (execute srv op p w).2 in
  let v := VInt (_max_row_buffer (self w)) in
  settings_view w1 = <["max_block_size" := v]> (settings_view w)
  ∧ (∀ l d, _settings (self w) = Some l → heap w !! l = Some d → d ≠ ∅ →
       _settings (self w1) = Some l
       ∧ heap w1 = <[l := <["max_block_size" := v]> d]> (heap w))
  ∧ (_settings (self w) = None
     ∨ (∃ l, _settings (self w) = Some l ∧ dict_at (heap w) l = ∅) →
     ∃ l', heap w !! l' = None ∧ _settings (self w1) = Some l'
           ∧ heap w1 = <[l' := {[ "max_block_size" := v ]}]> (heap w))
  ∧ (∀ b qs srv' op' p',
       let w2 := queries qs (on_self (set_stream_results false b) w1).2 in
       heap w2 = heap w1 ∧ _settings (self w2) = _settings (self w1)
       ∧ settings_view w2 !! "max_block_size" = Some v
       ∧ ∃ k d, calls (_client (self (execute srv' op' p' w2).2))
                = (calls (_client (self w2)) ++ [k])%list
                ∧ settings k = Some d
                ∧ d !! "max_block_size" = Some v).
Proof.
  intros Hst Ht Hs w1 v. subst v.
  pose proof (execute_streaming_effect srv op p w Hst Ht Hs) as He.
  pose proof (streaming_target_view (heap w) (self w)
                (VInt (_max_row_buffer (self w)))) as Hv.
  assert (Hview : settings_view w1
                  = <["max_block_size" := VInt (_max_row_buffer (self w))]>
                      (settings_view w)).
  { destruct (streaming_target (heap w) (self w)) as [l h1].
    destruct He as [Hh Hl]. unfold settings_view at 1. fold w1 in Hh, Hl.
    rewrite Hl, Hh, Hv. by destruct w. }
  split; [exact Hview|]. split; [|split].
  - intros l d Hl Hd Hne. unfold streaming_target in He. rewrite Hl in He.
    assert (dict_at (heap w) l = d) as Hat by (unfold dict_at; by rewrite Hd).
    rewrite Hat, (dict_truthy_true d Hne) in He. rewrite Hat in He.
    destruct He as [Hh Hs1]. by split.
  - intros Hfresh. exists (fresh (dom (heap w))).
    assert (heap w !! fresh (dom (heap w)) = None) as Hnone.
    { apply not_elem_of_dom, is_fresh. }
    split; [exact Hnone|].
    assert (streaming_target (heap w) (self w)
            = (fresh (dom (heap w)), <[fresh (dom (heap w)) := ∅]> (heap w)))
      as Htarget.
    { unfold streaming_target.
      destruct Hfresh as [-> | (l & -> & Hempty)]; [done|].
      rewrite Hempty. reflexivity. }
    rewrite Htarget in He. destruct He as [Hh Hs1]. split; [exact Hs1|].
    fold w1 in Hh. rewrite Hh, dict_at_insert, insert_insert_eq.
    by rewrite insert_empty.
  - intros b qs srv' op' p' w2.
    set (w1' := (on_self (set_stream_results false b) w1).2) in w2.
    destruct (queries_frame qs w1') as (F1 & _ & F3 & _ & _ & F6).
    fold w2 in F1, F3, F6.
    destruct F6 as [Fs Fh]; [reflexivity|].
    assert (heap w2 = heap w1) as Hh2 by (rewrite Fh; by destruct w1).
    assert (_settings (self w2) = _settings (self w1)) as Hs2
      by (rewrite Fs; by destruct w1).
    assert (settings_view w2 = settings_view w1) as Hview2.
    { unfold settings_view. by rewrite Hs2, Hh2. }
    split; [exact Hh2|]. split; [exact Hs2|].
    split; [by rewrite Hview2, Hview, lookup_insert_eq|].
    assert (_state (self w2) ≠ CURSOR_CLOSED) as Hst2.
    { apply queries_not_closed.
      pose proof (query_not_closed (Execute srv op p) w Hst) as Hq.
      cbn [query] in Hq. fold w1 in Hq. by destruct w1. }
    assert (_external_tables (self w2) = ∅) as Ht2.
    { rewrite F1.
      destruct (query_frame (Execute srv op p) w) as (G1 & _).
      cbn [query] in G1. fold w1 in G1. rewrite <- Ht, <- G1. by destruct w1. }
    assert (_stream_results (self w2) = false) as Hsr2.
    { rewrite F3. by destruct w1. }
    destruct (execute_buffered_records srv' op' p' w2 Hst2 Ht2 Hsr2)
      as (k & Hcalls & _ & Hk).
    assert (∃ l, _settings (self w1) = Some l) as [l Hl].
    { destruct (streaming_target (heap w) (self w)) as [l h1].
      destruct He as [_ Hl]. by exists l. }
    exists k, (dict_at (heap w2) l). split; [exact Hcalls|].
    split; [by rewrite Hk, Hs2, Hl|].
    assert (dict_at (heap w2) l = settings_view w2) as ->.
    { unfold settings_view. by rewrite Hs2, Hl. }
    by rewrite Hview2, Hview, lookup_insert_eq.
Qed.

Lemma C10_streaming_settings_witness :
  let w1 := (execute streaming_server "SELECT x FROM t" VNone tuned_world).2 in
  _settings (self w1) = Some 1%positive
  ∧ heap w1
    = <[1%positive := <["max_block_size" := VInt 100]>
                        {[ "max_block_size" := VInt 5 ]}]> (heap tuned_world).
Proof.
  intros w1.
  refine (proj1 (proj2 (C10_streaming_settings tuned_world streaming_server
                          "SELECT x FROM t" VNone _ _ _))
            1%positive {[ "max_block_size" := VInt 5 ]} _ _ _).
  - discriminate.
  - reflexivity.
  - reflexivity.
  - reflexivity.
  - reflexivity.
  - intros H. apply (f_equal (lookup "max_block_size")) in H.
    vm_compute in H. discriminate.
Defined.

(** * Further properties *)

(** ** X1: [description] after a query *)

Lemma zip_fmap_same {A B C} (f : A → B) (g : A → C) (l : list A) :
  zip (map f l) (map g l) = map (λ x, (f x, g x)) l.
Proof. induction l as [|x l IH]; [done|]. simpl. by rewrite IH. Qed.

Lemma description_of_header (c : Cursor) (cwt : list (string * string)) :
  _columns c = columns_of cwt →
  _types c = types_of cwt →
  description c = (Ok (map descriptor_of cwt), c).
Proof.
  intros Hc Ht. unfold description. unfold_monad. rewrite Hc, Ht.
  destruct cwt as [|nt cwt]; [done|].
  simpl. by rewrite zip_fmap_same, map_map.
Qed.

(** X1.  After a successful [execute], buffered or streamed, whose
    response carries the header [cwt], [description] is the list with
    one 7-tuple per header pair, in order: the name, the type, four
    [None] and [True]; reading it changes nothing. *)
Theorem X1_description_after_execute (w : World) (srv : Server) (op : string)
    (p : PyVal) (rows : list PyVal) (cwt : list (string * string)) :
  _state (self w) ≠ CURSOR_CLOSED →
  _external_tables (self w) = ∅ →
  (∀ k, srv k = if _stream_results (self w)
                then Ok (OIter (mkIter (header_val cwt :: rows) EndStop))
                else Ok (OVal (VTuple [VList rows; header_val cwt]))) →
  let out := execute srv op p w in
  out.1 = Ok tt
  ∧ description (self out.2) = (Ok (map descriptor_of cwt), self out.2).
Proof.
  intros Hst Ht Hsrv out. subst out.
  destruct (_stream_results (self w)) eqn:Hs.
  - destruct (execute_streaming_ok srv op p w rows EndStop cwt Hst Ht Hs Hsrv)
      as (k & s & h' & ->).
    split; [done|]. by apply description_of_header.
  - destruct (execute_buffered_ok srv op p w rows cwt Hst Ht Hs Hsrv) as [k ->].
    split; [done|]. by apply description_of_header.
Qed.

Lemma X1_description_after_execute_witness :
  (description (self (execute buffered_server "SELECT x FROM t" VNone
                        new_world).2)).1
  = Ok [mkDescriptor (VStr "x") (VStr "UInt8") VNone VNone VNone VNone true].
Proof.
  refine (f_equal fst (proj2 (X1_description_after_execute new_world
            buffered_server "SELECT x FROM t" VNone sample_rows sample_header
            _ _ _))).
  - discriminate.
  - reflexivity.
  - intros k. reflexivity.
Defined.

(** ** X4: fetches touch the row buffer only *)

Lemma fetch_frame (f : FetchCall) (c : Cursor) :
  without_rows (fetch f c).2 = without_rows c.
Proof.
  destruct c. destruct f as [|size|]; unfold fetch; run_fetch;
    repeat case_match; simplify_eq/=; reflexivity.
Qed.

Lemma without_rows_fields (c' c : Cursor) :
  without_rows c' = without_rows c →
  _client c' = _client c ∧ _state c' = _state c
  ∧ _columns c' = _columns c ∧ _types c' = _types c
  ∧ _rowcount c' = _rowcount c ∧ options_of c' = options_of c
  ∧ arraysize c' = arraysize c.
Proof.
  intros H. unfold without_rows, set_rows in H. injection H as ?????? ?????.
  unfold options_of. repeat split; congruence.
Qed.

(** X4.  A fetch call, whatever its size and whether it returns or
    raises, leaves the client, the state, columns, types, the stored row
    count, every staged option and [arraysize] as they were: it can
    change the row buffer only. *)
Theorem X4_fetch_changes_rows_only (f : FetchCall) (c : Cursor) :
  let c' := (fetch f c).2 in
  _client c' = _client c ∧ _state c' = _state c
  ∧ _columns c' = _columns c ∧ _types c' = _types c
  ∧ _rowcount c' = _rowcount c ∧ options_of c' = options_of c
  ∧ arraysize c' = arraysize c.
Proof.
  intros c'. subst c'.
  apply without_rows_fields.
  apply fetch_frame.
Qed.

(** ** X2: columns and types stay paired *)

Lemma zip_star_n_tuples (n : nat) (xss : list (list PyVal)) :
  Forall (λ v, ∃ l, v = VTuple l ∧ length l = length xss) (zip_star_n n xss).
Proof.
  revert xss. induction n as [|n IH]; intros xss; [constructor|].
  cbn [zip_star_n]. constructor.
  - eexists. split; [reflexivity|]. by rewrite length_map.
  - specialize (IH (map (λ xs, tl xs) xss)).
    rewrite length_map in IH. exact IH.
Qed.

Lemma split_columns_paired (v a b : PyVal) :
  split_columns v = Ok (a, b) →
  ∃ la lb, a = VTuple la ∧ b = VTuple lb ∧ length la = length lb.
Proof.
  unfold split_columns.
  destruct (py_iter v) as [pairs|]; [|discriminate].
  destruct (mapR py_iter pairs) as [xss|]; [|discriminate].
  unfold unpack2. cbn [py_iter].
  pose proof (zip_star_n_tuples (min_length xss) xss) as Hall.
  fold (zip_star xss) in Hall.
  destruct (zip_star xss) as [|x [|y [|z rest]]]; try discriminate.
  intros [= <- <-].
  apply Forall_cons in Hall as [(la & -> & Hla) Hall].
  apply Forall_cons in Hall as [(lb & -> & Hlb) _].
  exists la, lb. repeat split; congruence.
Qed.

Lemma process_response_columns (response : Obj) (many : bool) (c : Cursor) :
  let c' := (_process_response response many c).2 in
  (_columns c' = _columns c ∧ _types c' = _types c)
  ∨ (_columns c' = VList [] ∧ _types c' = VList [])
  ∨ split_columns (match (if _stream_results c then (next_obj response).1
                          else match unpack2_obj response with
                               | Ok rh => Ok rh.2
                               | Raise e => Raise e
                               end) with
                   | Ok header => header
                   | Raise _ => VNone
                   end)
    = Ok (_columns c', _types c').
Proof.
  cbn zeta. unfold _process_response. unfold_monad. simpl.
  destruct many; [right; left; done|]. simpl.
  destruct (obj_truthy response); simpl; [|right; left; done].
  destruct (_stream_results c).
  - destruct (next_obj response) as [[header|e] rest]; simpl; [|left; done].
    destruct (truthy header); simpl; [|right; left; done].
    destruct (split_columns header) as [[a b]|e] eqn:Hsplit; simpl;
      [right; right; done|left; done].
  - destruct (unpack2_obj response) as [[rows header]|e]; simpl; [|left; done].
    destruct (truthy header); simpl; [|right; left; done].
    destruct (split_columns header) as [[a b]|e] eqn:Hsplit; simpl;
      [right; right; done|left; done].
Qed.

Lemma process_response_paired (response : Obj) (many : bool) (c : Cursor) :
  paired c → paired (_process_response response many c).2.
Proof.
  intros Hc.
  destruct (process_response_columns response many c)
    as [[H1 H2]|[[H1 H2]|H]].
  - unfold paired. by rewrite H1, H2.
  - right. left. done.
  - right. right. destruct (split_columns_paired _ _ _ H) as (la & lb & ?).
    by exists la, lb.
Qed.

Lemma after_prepare_paired srv op p wct many e kw (w1 : World) :
  paired (self w1) →
  paired (self (after_prepare srv op p wct many e kw w1).2).
Proof.
  intros Hp. unfold after_prepare.
  destruct (srv _) as [resp|x].
  - pose proof (process_response_paired resp many
      (set_client (Client_record
         (mkCall e op p wct (dict_at (heap w1) <$> kw_settings kw)
            (kw_external_tables kw) (kw_types_check kw))
         (_client (self w1))) (self w1)) Hp) as Hf.
    by destruct (_process_response _ _ _) as [[[]|z] c3].
  - by destruct x.
Qed.

Lemma query_paired (q : QueryCall) (w : World) :
  paired (self w) → paired (self (query q w).2).
Proof.
  intros Hp. destruct w as [h c]. cbn [self] in Hp.
  destruct (decide (_state c = CURSOR_CLOSED)) as [Hst|Hst].
  { destruct q; cbn [query];
      by rewrite ?execute_closed, ?executemany_closed by done. }
  destruct (decide (_external_tables c = ∅)) as [Ht|Ht].
  2: { destruct q; cbn [query];
         by rewrite ?execute_tables_raise, ?executemany_tables_raise by done. }
  destruct (prepare_succeeds h (set_state RUNNING c) Ht)
    as (e & kw & h1 & s & Hprep & _).
  destruct q as [srv op p|srv op p]; cbn [query].
  - rewrite (execute_run srv op p h c e kw _ Hst Hprep).
    by apply after_prepare_paired.
  - rewrite (executemany_run srv op p h c e kw _ Hst Hprep).
    by apply after_prepare_paired.
Qed.

Lemma description_frame (c : Cursor) : (description c).2 = c.
Proof.
  unfold description. unfold_monad.
  by repeat (case_match; simplify_eq/=).
Qed.

Lemma run_op_paired (o : Op) (w : World) :
  paired (self w) → paired (self (run_op o w).2).
Proof.
  intros Hp. destruct o; cbn [run_op].
  - by apply query_paired.
  - destruct (without_rows_fields _ _ (fetch_frame f (self w)))
      as (_ & _ & Hc & Ht & _).
    unfold_monad.
    destruct (fetch f (self w)) as [[o|e] c']; cbn [fst snd self] in *;
      unfold paired; by rewrite Hc, Ht.
  - exact Hp.
  - pose proof (description_frame (self w)) as Hd.
    unfold_monad.
    destruct (description (self w)) as [[o|e] c']; cbn [fst snd self] in *;
      by subst c'.
  - exact Hp.
  - exact Hp.
  - exact Hp.
  - exact Hp.
  - exact Hp.
  - exact Hp.
  - exact Hp.
  - exact Hp.
Qed.

Lemma run_ops_paired (os : list Op) (w : World) :
  paired (self w) → paired (self (run_ops os w)).
Proof.
  revert w. induction os as [|o os IH]; intros w Hp; [done|].
  cbn [run_ops]. by apply IH, run_op_paired.
Qed.

Lemma description_paired (c : Cursor) :
  paired c →
  ∃ ds, description c = (Ok ds, c)
        ∧ map d_name ds = column_names c
        ∧ length ds = length (column_names c).
Proof.
  unfold paired, column_names, description. unfold_monad.
  intros [[-> ->]|[[-> ->]|(a & b & -> & -> & Hab)]].
  - exists []. by simpl.
  - exists []. by simpl.
  - destruct a as [|x a]; destruct b as [|y b]; try discriminate.
    + exists []. by simpl.
    + eexists. split; [reflexivity|].
      assert (map d_name
                (map (λ nt, mkDescriptor nt.1 nt.2 VNone VNone VNone VNone true)
                   (zip (x :: a) (y :: b))) = x :: a) as Hnames.
      { rewrite map_map. cbn [d_name].
        change (map (λ nt : PyVal * PyVal, nt.1) (zip (x :: a) (y :: b)))
          with ((zip (x :: a) (y :: b)).*1).
        apply fst_zip. simpl in *. lia. }
      split; [exact Hnames|]. by rewrite <- Hnames at 2; rewrite !length_map.
Qed.

(** X2.  Whatever public operations are run on a new cursor, and
    whatever the client answers, columns and types stay paired (both
    unset, both empty, or two tuples of one length); so [description]
    never raises, changes nothing, and has exactly one entry per column,
    named after it in order. *)
Theorem X2_description_matches_columns (client : Client)
    (h : gmap positive (gmap string PyVal)) (os : list Op) :
  let c := self (run_ops os (mkWorld h (Cursor__init__ client))) in
  paired c
  ∧ ∃ ds, description c = (Ok ds, c)
          ∧ map d_name ds = column_names c
          ∧ length ds = length (column_names c).
Proof.
  intros c.
  assert (paired c) as Hp.
  { apply run_ops_paired. left. done. }
  split; [exact Hp|].
  by apply description_paired.
Qed.

(** ** X3: CLOSED is terminal *)

Lemma run_op_closed (o : Op) (w : World) :
  closed_for_good w →
  closed_for_good (run_op o w).2
  ∧ calls (_client (self (run_op o w).2)) = calls (_client (self w))
  ∧ disconnect_calls (_client (self (run_op o w).2))
    = (disconnect_calls (_client (self w)) + closes [o])%nat.
Proof.
  intros [Hst Hd]. destruct o; cbn [run_op closes]; rewrite ?Nat.add_0_r.
  - destruct q; cbn [query];
      by rewrite ?execute_closed, ?executemany_closed by done.
  - destruct (without_rows_fields _ _ (fetch_frame f (self w)))
      as (Hc & Hs & _).
    unfold_monad. unfold closed_for_good.
    destruct (fetch f (self w)) as [[o|e] c']; cbn [fst snd self] in *;
      by rewrite Hc, Hs.
  - unfold closed_for_good, Cursor_close. unfold_monad. simpl.
    split; [done|]. split; [done|]. lia.
  - pose proof (description_frame (self w)) as Hdesc.
    unfold_monad. unfold closed_for_good.
    destruct (description (self w)) as [[o|e] c']; cbn [fst snd self] in *;
      by subst c'.
  - by unfold_monad.
  - by unfold_monad.
  - by unfold_monad.
  - by unfold_monad.
  - by unfold_monad.
  - by unfold_monad.
  - by unfold_monad.
  - by unfold_monad.
Qed.

Lemma closes_cons (o : Op) (os : list Op) :
  closes (o :: os) = (closes [o] + closes os)%nat.
Proof. by destruct o. Qed.

Lemma run_ops_closed (os : list Op) (w : World) :
  closed_for_good w →
  closed_for_good (run_ops os w)
  ∧ calls (_client (self (run_ops os w))) = calls (_client (self w))
  ∧ disconnect_calls (_client (self (run_ops os w)))
    = (disconnect_calls (_client (self w)) + closes os)%nat.
Proof.
  revert w. induction os as [|o os IH]; intros w Hw.
  - split; [done|]. split; [done|]. cbn [run_ops closes]. lia.
  - cbn [run_ops]. destruct (run_op_closed o w Hw) as (Hw' & Hcalls & Hn).
    destruct (IH _ Hw') as (Hend & Hcalls' & Hn').
    split; [done|]. split; [congruence|].
    rewrite Hn', Hn, (closes_cons o os). lia.
Qed.

(** X3.  [close] succeeds from every state, calls [disconnect()] on the
    client and moves the cursor to CLOSED; after it, whatever public
    operations follow, the cursor stays CLOSED and disconnected, the
    [execute] and [execute_iter] of the client receive no further call,
    and [execute] and [executemany] raise the "Cursor is closed" error
    without changing anything.  [close] itself is not guarded: every
    later [close()] succeeds and calls [disconnect()] on the client once
    more, and no other operation does. *)
Theorem X3_closed_is_terminal (w0 : World) (os : list Op) :
  let w := run_ops os (on_self Cursor_close w0).2 in
  (on_self Cursor_close w0).1 = Ok tt
  ∧ _state (self w) = CURSOR_CLOSED
  ∧ disconnected (_client (self w)) = true
  ∧ calls (_client (self w)) = calls (_client (self w0))
  ∧ disconnect_calls (_client (self w))
    = S (disconnect_calls (_client (self w0)) + closes os)
  ∧ (run_op OpClose w).1 = Ok tt
  ∧ ∀ srv op p,
      execute srv op p w = (Raise (Error "Cursor is closed"), w)
      ∧ executemany srv op p w = (Raise (Error "Cursor is closed"), w).
Proof.
  intros w.
  assert (closed_for_good (on_self Cursor_close w0).2) as Hclosed by done.
  destruct (run_ops_closed os _ Hclosed) as ([Hst Hd] & Hcalls & Hn).
  fold w in Hst, Hd, Hcalls, Hn.
  split; [done|]. split; [exact Hst|]. split; [exact Hd|].
  split; [exact Hcalls|]. split; [by rewrite Hn|]. split; [done|].
  intros srv op p. by rewrite execute_closed, executemany_closed.
Qed.

(** ** X5: buffered [fetchmany] splits the buffer *)

(** X5.  In buffered mode [fetchmany], for any size, negative or the
    [arraysize] default included, returns a front part of the buffer and
    keeps the rest: the rows returned followed by the rows kept are the
    buffer as it was.  A size [s >= 0] returns [min(s, len)] rows; a size
    [s < 0] keeps the last [min(-s, len)] rows. *)
Theorem X5_buffered_fetchmany_splits (c : Cursor) (l : list PyVal)
    (size : option Z) :
  _state c ≠ NONE →
  _stream_results c = false →
  _rows c = OVal (VList l) →
  let s := default (arraysize c) size in
  ∃ got rest,
    fetchmany size c
    = (Ok (OVal (VList got)), set_rows (OVal (VList rest)) c)
    ∧ (got ++ rest)%list = l
    ∧ (0 ≤ s → length got = Nat.min (Z.to_nat s) (length l))
    ∧ (s < 0 → length rest = Nat.min (Z.to_nat (- s)) (length l)).
Proof.
  intros Hst Hs Hr s.
  assert (fetchmany size c = fetchmany (Some s) c) as ->.
  { destruct size; [done|]. apply fetchmany_default. }
  rewrite (fetchmany_buffered c l s) by done.
  exists (slice_to l s), (slice_from l s). split; [done|].
  unfold slice_to, slice_from. split; [apply take_drop|].
  split; intros Hsign.
  - rewrite slice_stop_nonneg by done. apply length_take.
  - unfold slice_stop. rewrite (proj2 (Z.ltb_lt s 0)) by done.
    rewrite length_drop. lia.
Qed.

Lemma X5_buffered_fetchmany_splits_witness :
  ∃ got rest,
    fetchmany (Some (-1)) (self buffered_finished)
    = (Ok (OVal (VList got)),
       set_rows (OVal (VList rest)) (self buffered_finished))
    ∧ (got ++ rest)%list = sample_rows.
Proof.
  destruct (X5_buffered_fetchmany_splits (self buffered_finished) sample_rows
              (Some (-1))) as (got & rest & H1 & H2 & _).
  - discriminate.
  - reflexivity.
  - reflexivity.
  - exists got, rest. split; [exact H1|exact H2].
Defined.

(** ** X6 and X7: the call the client receives *)

Lemma after_prepare_client srv op p wct many e kw (w1 : World) :
  _client (self (after_prepare srv op p wct many e kw w1).2)
  = Client_record
      (mkCall e op p wct (dict_at (heap w1) <$> kw_settings kw)
         (kw_external_tables kw) (kw_types_check kw))
      (_client (self w1)).
Proof.
  unfold after_prepare.
  set (k := mkCall _ _ _ _ _ _ _).
  destruct (srv k) as [resp|x].
  - pose proof (process_response_client resp many
      (set_client (Client_record k (_client (self w1))) (self w1))) as Hc.
    by destruct (_process_response _ _ _) as [[[]|z] c3].
  - by destruct x.
Qed.

(** The client of the cursor after a query that reaches it. *)
Lemma query_client (q : QueryCall) (w : World) :
  _state (self w) ≠ CURSOR_CLOSED →
  _external_tables (self w) = ∅ →
  _client (self (query q w).2)
  = Client_record
      (mkCall (if _stream_results (self w) then EExecuteIter else EExecute)
         (query_text q) (query_params q) (query_with_column_types q)
         (if _stream_results (self w)
          then Some (<["max_block_size" := VInt (_max_row_buffer (self w))]>
                       (settings_view w))
          else dict_at (heap w) <$> _settings (self w))
         None (_types_check (self w)))
      (_client (self w)).
Proof.
  intros Hst Ht. destruct w as [h c]. cbn [self heap] in *.
  destruct (_stream_results c) eqn:Hs.
  - pose proof (prepare_streaming h (set_state RUNNING c) Ht Hs) as Hp.
    pose proof (streaming_target_view h c (VInt (_max_row_buffer c))) as Hv.
    change (streaming_target h (set_state RUNNING c))
      with (streaming_target h c) in Hp.
    destruct (streaming_target h c) as [l h1].
    destruct q as [srv op p|srv op p]; cbn [query];
      rewrite ?(execute_run srv op p h c _ _ _ Hst Hp),
              ?(executemany_run srv op p h c _ _ _ Hst Hp);
      rewrite after_prepare_client;
      cbn [heap self kw_settings kw_external_tables kw_types_check fmap
           option_fmap option_map];
      by rewrite <- Hv.
  - pose proof (prepare_buffered h (set_state RUNNING c) Ht Hs) as Hp.
    destruct q as [srv op p|srv op p]; cbn [query];
      rewrite ?(execute_run srv op p h c _ _ _ Hst Hp),
              ?(executemany_run srv op p h c _ _ _ Hst Hp);
      by rewrite after_prepare_client.
Qed.

(** X6.  A query on a cursor that is not CLOSED and has no external
    table registered calls the client exactly once, whatever the
    outcome: [execute_iter] in streaming mode and [execute] otherwise
    ([executemany] included), with the statement text and the
    parameters as given, [with_column_types=True] from [execute] and no
    such argument from [executemany], no external tables, and the staged
    types-check flag; it never disconnects the client. *)
Theorem X6_query_calls_client_once (q : QueryCall) (w : World) :
  _state (self w) ≠ CURSOR_CLOSED →
  _external_tables (self w) = ∅ →
  let client' := _client (self (query q w).2) in
  disconnected client' = disconnected (_client (self w))
  ∧ ∃ k, calls client' = (calls (_client (self w)) ++ [k])%list
         ∧ entry k = (if _stream_results (self w) then EExecuteIter
                      else EExecute)
         ∧ operation k = query_text q
         ∧ params k = query_params q
         ∧ with_column_types k = query_with_column_types q
         ∧ external_tables k = None
         ∧ types_check k = _types_check (self w).
Proof.
  intros Hst Ht client'. subst client'.
  rewrite (query_client q w Hst Ht).
  split; [reflexivity|].
  eexists. split; [reflexivity|]. by repeat split.
Qed.

Lemma X6_query_calls_client_once_witness :
  ∃ k, calls (_client (self (query (ExecuteMany failing_server
                                      "INSERT INTO t VALUES" (VList []))
                               streaming_world).2))
       = [k]
       ∧ entry k = EExecuteIter ∧ with_column_types k = None.
Proof.
  destruct (X6_query_calls_client_once
              (ExecuteMany failing_server "INSERT INTO t VALUES" (VList []))
              streaming_world)
    as (_ & k & Hcalls & Hentry & _ & _ & Hwct & _).
  - discriminate.
  - reflexivity.
  - exists k. split; [exact Hcalls|]. split; [exact Hentry|exact Hwct].
Defined.

(** X7.  The settings the client receives in that call: in buffered
    mode the content of the staged dictionary as it is at that moment, or
    [None] when none is staged; in streaming mode a dictionary with the
    staged content (empty when none is staged) in which
    ["max_block_size"] is the row buffer size, whatever value the caller
    had given that key. *)
Theorem X7_settings_received (q : QueryCall) (w : World) :
  _state (self w) ≠ CURSOR_CLOSED →
  _external_tables (self w) = ∅ →
  ∃ k, last (calls (_client (self (query q w).2))) = Some k
       ∧ settings k
         = if _stream_results (self w)
           then Some (<["max_block_size" := VInt (_max_row_buffer (self w))]>
                        (settings_view w))
           else dict_at (heap w) <$> _settings (self w).
Proof.
  intros Hst Ht. rewrite (query_client q w Hst Ht).
  eexists. split; [apply last_snoc|]. reflexivity.
Qed.

Lemma X7_settings_received_witness :
  ∃ k, last (calls (_client (self (query (Execute streaming_server
                                            "SELECT x FROM t" VNone)
                                     tuned_world).2))) = Some k
       ∧ settings k = Some {[ "max_block_size" := VInt 100 ]}.
Proof.
  destruct (X7_settings_received
              (Execute streaming_server "SELECT x FROM t" VNone) tuned_world)
    as (k & Hlast & Hk).
  - discriminate.
  - reflexivity.
  - exists k. split; [exact Hlast|]. rewrite Hk. vm_compute. reflexivity.
Defined.

(** ** X8: a registered table blocks every later query *)

Lemma query_tables_raise (q : QueryCall) (w : World) :
  _state (self w) ≠ CURSOR_CLOSED →
  _external_tables (self w) ≠ ∅ →
  query q w = (Raise ValueError, mkWorld (heap w) (set_state RUNNING (self w))).
Proof.
  intros Hst Ht. destruct q; cbn [query].
  - by apply execute_tables_raise.
  - by apply executemany_tables_raise.
Qed.

Lemma queries_tables_raise (qs : list QueryCall) (w : World) :
  _state (self w) ≠ CURSOR_CLOSED →
  _external_tables (self w) ≠ ∅ →
  outcomes qs w = map (λ _, Raise ValueError) qs
  ∧ heap (queries qs w) = heap w
  ∧ _client (self (queries qs w)) = _client (self w)
  ∧ _external_tables (self (queries qs w)) = _external_tables (self w).
Proof.
  revert w. induction qs as [|q qs IH]; intros w Hst Ht; [done|].
  cbn [outcomes queries map]. rewrite (query_tables_raise q w Hst Ht).
  cbn [fst snd].
  destruct (IH (mkWorld (heap w) (set_state RUNNING (self w))))
    as (H1 & H2 & H3 & H4); [done..|].
  by rewrite H1, H2, H3, H4.
Qed.

(** X8.  Once [set_external_table] has registered a table on a cursor
    that is not CLOSED, every later [execute] and [executemany] on it
    raises [ValueError], in any number and order and whatever the table
    and the statement; none of them reaches the client or touches the
    settings, and the table stays registered. *)
Theorem X8_registered_table_blocks_queries (c : Cursor)
    (h : gmap positive (gmap string PyVal)) (name : string)
    (structure data : PyVal) (qs : list QueryCall) :
  _state c ≠ CURSOR_CLOSED →
  let w := mkWorld h (set_external_table name structure data c).2 in
  outcomes qs w = map (λ _, Raise ValueError) qs
  ∧ heap (queries qs w) = h
  ∧ _client (self (queries qs w)) = _client c
  ∧ _external_tables (self (queries qs w)) !! name = Some (structure, data).
Proof.
  intros Hst w.
  destruct (queries_tables_raise qs w) as (H1 & H2 & H3 & H4).
  - exact Hst.
  - apply insert_non_empty.
  - split; [exact H1|]. split; [exact H2|]. split; [exact H3|].
    rewrite H4. apply lookup_insert_eq.
Qed.

Lemma X8_registered_table_blocks_queries_witness :
  outcomes [Execute buffered_server "SELECT 1" VNone;
            ExecuteMany buffered_server "INSERT INTO t VALUES" (VList [])]
    (mkWorld ∅ (set_external_table "ext" (VList []) (VList [])
                  (self buffered_finished)).2)
  = [Raise ValueError; Raise ValueError].
Proof.
  refine (proj1 (X8_registered_table_blocks_queries (self buffered_finished)
                   ∅ "ext" (VList []) (VList []) _ _)).
  discriminate.
Defined.

(** ** X9 to X12: answers that are not a result set *)

Lemma executemany_ok srv op p (w : World) (response : Obj) :
  _state (self w) ≠ CURSOR_CLOSED →
  _external_tables (self w) = ∅ →
  (∀ k, srv k = Ok response) →
  ∃ k s h',
    executemany srv op p w
    = (Ok tt,
       mkWorld h'
         (set_state FINISHED
            (with_result (VList []) (VList []) (OVal (VList []))
               (set_rowcount response
                  (set_client (Client_record k (_client (self w)))
                     (set_settings_ref s (set_state RUNNING (self w)))))))).
Proof.
  intros Hst Ht Hsrv. destruct w as [h c]. cbn [self] in *.
  destruct (prepare_succeeds h (set_state RUNNING c) Ht)
    as (e & kw & h1 & s & Hp & _).
  rewrite (executemany_run srv op p h c e kw _ Hst Hp).
  unfold after_prepare. rewrite Hsrv, process_response_many.
  by eexists _, _, _.
Qed.

(** X9.  [executemany] succeeds whenever the client call returns,
    whatever it returns and in either mode: the cursor becomes FINISHED
    with columns, types and rows empty (the previous result is gone),
    the answer is kept as the stored row count, and [description] is
    empty. *)
Theorem X9_executemany_result (w : World) (srv : Server) (op : string)
    (p : PyVal) (response : Obj) :
  _state (self w) ≠ CURSOR_CLOSED →
  _external_tables (self w) = ∅ →
  (∀ k, srv k = Ok response) →
  let out := executemany srv op p w in
  out.1 = Ok tt
  ∧ _state (self out.2) = FINISHED
  ∧ _columns (self out.2) = VList []
  ∧ _types (self out.2) = VList []
  ∧ _rows (self out.2) = OVal (VList [])
  ∧ _rowcount (self out.2) = response
  ∧ (description (self out.2)).1 = Ok [].
Proof.
  intros Hst Ht Hsrv out. subst out.
  destruct (executemany_ok srv op p w response Hst Ht Hsrv)
    as (k & s & h' & ->).
  by repeat split.
Qed.

Lemma X9_executemany_result_witness :
  let out := executemany (λ _, Ok (OVal (VInt 2))) "INSERT INTO t VALUES"
               (VList []) buffered_finished in
  out.1 = Ok tt ∧ _rows (self out.2) = OVal (VList [])
  ∧ _rowcount (self out.2) = OVal (VInt 2).
Proof.
  intros out.
  destruct (X9_executemany_result buffered_finished (λ _, Ok (OVal (VInt 2)))
              "INSERT INTO t VALUES" (VList []) (OVal (VInt 2)))
    as (H1 & _ & _ & _ & H5 & H6 & _).
  - discriminate.
  - reflexivity.
  - intros k. reflexivity.
  - split; [exact H1|]. split; [exact H5|exact H6].
Defined.

(** X10.  After a successful [executemany] the row buffer is an empty
    list in either mode.  In buffered mode [fetchone] returns the null
    marker and [fetchmany], with any size, and [fetchall] return an
    empty list; in streaming mode [fetchall] and [fetchmany(k)] with
    [0 <= k <= sys.maxsize] return an empty list too, [fetchmany(k)]
    with any other [k] raises [ValueError], and [fetchone] raises
    [TypeError], the buffer being a list and not an iterator. *)
Theorem X10_fetch_after_executemany (w : World) (srv : Server) (op : string)
    (p : PyVal) (response : Obj) :
  _state (self w) ≠ CURSOR_CLOSED →
  _external_tables (self w) = ∅ →
  (∀ k, srv k = Ok response) →
  let c := self (executemany srv op p w).2 in
  (fetchall c).1 = Ok (OVal (VList []))
  ∧ (∀ k, 0 ≤ k ≤ sys_maxsize →
       (fetchmany (Some k) c).1 = Ok (OVal (VList [])))
  ∧ (_stream_results (self w) = false →
     (fetchone c).1 = Ok (OVal VNone)
     ∧ ∀ size, (fetchmany size c).1 = Ok (OVal (VList [])))
  ∧ (_stream_results (self w) = true →
     (fetchone c).1 = Raise TypeError
     ∧ ∀ k, k < 0 ∨ sys_maxsize < k →
         (fetchmany (Some k) c).1 = Raise ValueError).
Proof.
  intros Hst Ht Hsrv c. subst c.
  destruct (executemany_ok srv op p w response Hst Ht Hsrv)
    as (k & s & h' & ->).
  cbn [snd self]. remember (set_state FINISHED _) as c eqn:Ec.
  assert (_stream_results c = _stream_results (self w)) as Hs by by subst c.
  assert (_rows c = OVal (VList [])) as Hr by by subst c.
  assert (_state c ≠ NONE) as Hc by by subst c.
  clear Ec.
  destruct (_stream_results (self w)) eqn:Hmode.
  - split; [|split; [|split]].
    + run_fetch. rewrite decide_False by done. by rewrite Hs, Hr.
    + intros n [Hn Hmax]. run_fetch. rewrite decide_False by done.
      rewrite Hs, Hr. rewrite islice_stop_ok_true by done.
      unfold islice_list. cbn [py_iter negb]. by rewrite take_nil.
    + done.
    + intros _. split.
      * run_fetch. rewrite decide_False by done. by rewrite Hs, Hr.
      * intros n Hn. by rewrite (fetchmany_streaming_refused c n).
  - assert (∀ size, (fetchmany size c).1 = Ok (OVal (VList []))) as Hmany.
    { intros size.
      assert (fetchmany size c = fetchmany (Some (default (arraysize c) size)) c)
        as -> by (destruct size; [done|apply fetchmany_default]).
      rewrite (fetchmany_buffered c []) by done.
      unfold slice_to. by rewrite take_nil. }
    split; [|split; [|split]].
    + by rewrite (fetchall_buffered c), Hr.
    + intros n _. apply Hmany.
    + intros _. split; [|exact Hmany].
      by rewrite (fetchone_buffered_nil c).
    + done.
Qed.

Lemma X10_fetch_after_executemany_witness :
  let c := self (executemany (λ _, Ok (OVal (VInt 2)))
                   "INSERT INTO t VALUES" (VList []) streaming_world).2 in
  (fetchone c).1 = Raise TypeError
  ∧ (fetchmany (Some 3) c).1 = Ok (OVal (VList []))
  ∧ (fetchmany (Some (sys_maxsize + 1)) c).1 = Raise ValueError.
Proof.
  intros c.
  destruct (X10_fetch_after_executemany streaming_world
              (λ _, Ok (OVal (VInt 2))) "INSERT INTO t VALUES" (VList [])
              (OVal (VInt 2)))
    as (_ & Hmany & _ & Hstream).
  - discriminate.
  - reflexivity.
  - intros k. reflexivity.
  - destruct Hstream as [Hone Hout]; [reflexivity|].
    split; [exact Hone|]. split.
    + apply Hmany. by vm_compute.
    + apply Hout. right. by vm_compute.
Defined.

Lemma process_response_falsy (c : Cursor) (v : PyVal) :
  truthy v = false →
  _process_response (OVal v) false c
  = (Ok tt, with_result (VList []) (VList []) (OVal (VList [])) c).
Proof.
  intros Hv. unfold _process_response. unfold_monad. simpl. by rewrite Hv.
Qed.

Lemma process_response_count (c : Cursor) (n : Z) :
  n ≠ 0 →
  _stream_results c = false →
  _process_response (OVal (VInt n)) false c = (Raise TypeError, c).
Proof.
  intros Hn Hs. unfold _process_response. unfold_monad. simpl.
  rewrite (proj2 (Z.eqb_neq n 0)) by done. simpl. by rewrite Hs.
Qed.

(** X11.  A buffered [execute] whose client answer is not a pair: an
    answer that is false in Python ([None], [0], an empty sequence) gives
    a FINISHED cursor with columns, types and rows empty; an answer that
    is a non-zero integer makes [execute] raise [TypeError] and leaves
    the cursor RUNNING with the columns, types and rows it had. *)
Theorem X11_execute_non_pair_answer (w : World) (srv : Server) (op : string)
    (p v : PyVal) :
  _state (self w) ≠ CURSOR_CLOSED →
  _external_tables (self w) = ∅ →
  _stream_results (self w) = false →
  (∀ k, srv k = Ok (OVal v)) →
  let out := execute srv op p w in
  (truthy v = false →
     out.1 = Ok tt ∧ _state (self out.2) = FINISHED
     ∧ _columns (self out.2) = VList [] ∧ _types (self out.2) = VList []
     ∧ _rows (self out.2) = OVal (VList []))
  ∧ (∀ n, v = VInt n → n ≠ 0 →
     out.1 = Raise TypeError ∧ _state (self out.2) = RUNNING
     ∧ _columns (self out.2) = _columns (self w)
     ∧ _types (self out.2) = _types (self w)
     ∧ _rows (self out.2) = _rows (self w)).
Proof.
  intros Hst Ht Hs Hsrv out. subst out. destruct w as [h c]. cbn [self] in *.
  rewrite (execute_run srv op p h c _ _ _ Hst
             (prepare_buffered h (set_state RUNNING c) Ht Hs)).
  unfold after_prepare. rewrite Hsrv. split.
  - intros Hv. by rewrite process_response_falsy.
  - intros n -> Hn. by rewrite process_response_count.
Qed.

Lemma X11_execute_non_pair_answer_witness :
  let out := execute (λ _, Ok (OVal (VInt 2))) "INSERT INTO t VALUES"
               (VList []) buffered_finished in
  out.1 = Raise TypeError ∧ _state (self out.2) = RUNNING
  ∧ _rows (self out.2) = OVal (VList sample_rows).
Proof.
  intros out.
  destruct (proj2 (X11_execute_non_pair_answer buffered_finished
                     (λ _, Ok (OVal (VInt 2))) "INSERT INTO t VALUES"
                     (VList []) (VInt 2) ltac:(discriminate) eq_refl eq_refl
                     (λ _, eq_refl)) 2 eq_refl ltac:(discriminate))
    as (H1 & H2 & _ & _ & H5).
  split; [exact H1|]. split; [exact H2|exact H5].
Defined.

(** X12.  A streaming [execute] whose lazy answer has no first element:
    when the sequence is simply empty, [execute] raises [StopIteration];
    when pulling the header raises, that exception leaves [execute] as
    it is, a native client error included.  Either way the cursor stays
    RUNNING with the columns, types and rows it had. *)
Theorem X12_streaming_header_missing (w : World) (srv : Server) (op : string)
    (p : PyVal) (e : IterEnd) :
  _state (self w) ≠ CURSOR_CLOSED →
  _external_tables (self w) = ∅ →
  _stream_results (self w) = true →
  (∀ k, srv k = Ok (OIter (mkIter [] e))) →
  let out := execute srv op p w in
  out.1 = Raise (match e with EndStop => StopIteration | EndRaise x => x end)
  ∧ _state (self out.2) = RUNNING
  ∧ _columns (self out.2) = _columns (self w)
  ∧ _types (self out.2) = _types (self w)
  ∧ _rows (self out.2) = _rows (self w).
Proof.
  intros Hst Ht Hs Hsrv out. subst out. destruct w as [h c]. cbn [self] in *.
  pose proof (prepare_streaming h (set_state RUNNING c) Ht Hs) as Hp.
  destruct (streaming_target h (set_state RUNNING c)) as [l h1].
  rewrite (execute_run srv op p h c _ _ _ Hst Hp).
  unfold after_prepare. rewrite Hsrv.
  unfold _process_response. unfold_monad. simpl. rewrite Hs.
  by destruct e.
Qed.

Lemma X12_streaming_header_missing_witness :
  (execute lazily_failing_server "SELECT x FROM t" VNone streaming_world).1
  = Raise (DriverError "Code: 210. Connection refused").
Proof.
  refine (proj1 (X12_streaming_header_missing streaming_world
                   lazily_failing_server "SELECT x FROM t" VNone
                   (EndRaise (DriverError "Code: 210. Connection refused"))
                   _ _ _ _)).
  - discriminate.
  - reflexivity.
  - reflexivity.
  - intros k. reflexivity.
Defined.

(** ** X13: a stream that fails on the way *)

Lemma fetchone_rows_before_failure (R : list (list PyVal)) (e : IterEnd)
    (c : Cursor) :
  _state c ≠ NONE →
  _stream_results c = true →
  _rows c = OIter (mkIter (map VTuple R) e) →
  answers (replicate (length R) FetchOne) c
  = (Ok (map (λ r, OVal (VTuple r)) R), set_rows (OIter (mkIter [] e)) c).
Proof.
  revert c. induction R as [|r R IH]; intros c Hst Hs Hr.
  - cbn in Hr |- *. rewrite <- Hr. by destruct c.
  - cbn [length replicate answers fetch]. unfold_monad.
    rewrite (fetchone_streaming_cons c (VTuple r) (map VTuple R) e) by done.
    rewrite IH by done. reflexivity.
Qed.

Lemma fetchone_streaming_failure (c : Cursor) (x : Exc) :
  _state c ≠ NONE →
  _stream_results c = true →
  _rows c = OIter (mkIter [] (EndRaise x)) →
  x ≠ StopIteration →
  fetchone c = (Raise x, set_rows (OIter exhausted) c).
Proof.
  intros Hst Hs Hr Hx. run_fetch. rewrite decide_False by done.
  rewrite Hs, Hr. by destruct x.
Qed.

(** X13.  In streaming mode, when the lazy sequence raises [x] after the
    rows [R] (the read behind it failing), [fetchone] still returns the
    rows of [R] one by one, then raises [x] as it is, and from then on
    returns the null marker; [fetchall], and [fetchmany(k)] with [k]
    above the number of rows and at most [sys.maxsize], raise [x]
    without returning the rows they had pulled, and leave the source
    exhausted, so that a later [fetchall] returns an empty list. *)
Theorem X13_stream_fails_midway (c : Cursor) (R : list (list PyVal))
    (x : Exc) :
  _state c ≠ NONE →
  _stream_results c = true →
  _rows c = OIter (mkIter (map VTuple R) (EndRaise x)) →
  x ≠ StopIteration →
  let spent := set_rows (OIter exhausted) c in
  (∃ c1, answers (replicate (length R) FetchOne) c
         = (Ok (map (λ r, OVal (VTuple r)) R), c1)
         ∧ fetchone c1 = (Raise x, spent))
  ∧ fetchone spent = (Ok (OVal VNone), spent)
  ∧ fetchall c = (Raise x, spent)
  ∧ (∀ k, 0 ≤ k ≤ sys_maxsize → (length R < Z.to_nat k)%nat →
       fetchmany (Some k) c = (Raise x, spent))
  ∧ fetchall spent = (Ok (OVal (VList [])), spent).
Proof.
  intros Hst Hs Hr Hx spent.
  split; [|split; [|split; [|split]]].
  - eexists. split; [by apply fetchone_rows_before_failure|].
    by rewrite (fetchone_streaming_failure _ x).
  - by rewrite (fetchone_streaming_nil spent).
  - run_fetch. rewrite decide_False by done. by rewrite Hs, Hr.
  - intros k [Hk Hmax] Hlen. run_fetch. rewrite decide_False by done.
    rewrite Hs, Hr. rewrite islice_stop_ok_true by done.
    unfold islice_list. cbn [negb]. rewrite length_map.
    by rewrite decide_False by lia.
  - by rewrite (fetchall_streaming spent []).
Qed.

Lemma X13_stream_fails_midway_witness :
  let c := set_rows (OIter (mkIter (map VTuple [[VInt 1]])
                              (EndRaise (DriverError "Code: 209. Timeout"))))
             (self streaming_finished) in
  fetchall c
  = (Raise (DriverError "Code: 209. Timeout"), set_rows (OIter exhausted) c)
  ∧ fetchmany (Some 2) c
    = (Raise (DriverError "Code: 209. Timeout"), set_rows (OIter exhausted) c).
Proof.
  intros c.
  destruct (X13_stream_fails_midway c [[VInt 1]]
              (DriverError "Code: 209. Timeout"))
    as (_ & _ & Hall & Hmany & _).
  - discriminate.
  - reflexivity.
  - reflexivity.
  - discriminate.
  - split; [exact Hall|]. apply Hmany.
    + by vm_compute.
    + simpl. lia.
Defined.

(** ** X14 and X15: the streaming flag changed between query and fetch *)

(** X14.  When streaming is switched on after a buffered query has left
    the rows [l] in the buffer, [fetchone] raises [TypeError], while
    [fetchmany(k)] with [0 <= k <= sys.maxsize] and [fetchall] return
    the first [k] rows and all rows without consuming anything: the
    cursor is unchanged, and the same call gives the same rows again;
    [fetchmany(k)] with any other [k] raises [ValueError]. *)
Theorem X14_streaming_switched_on_late (c : Cursor) (l : list PyVal)
    (buffer : Z) :
  _state c ≠ NONE →
  _rows c = OVal (VList l) →
  let c1 := (set_stream_results true buffer c).2 in
  fetchone c1 = (Raise TypeError, c1)
  ∧ (∀ k, 0 ≤ k ≤ sys_maxsize →
       fetchmany (Some k) c1 = (Ok (OVal (VList (take (Z.to_nat k) l))), c1))
  ∧ (∀ k, k < 0 ∨ sys_maxsize < k →
       fetchmany (Some k) c1 = (Raise ValueError, c1))
  ∧ fetchall c1 = (Ok (OVal (VList l)), c1).
Proof.
  intros Hst Hr c1. subst c1. destruct c. cbn in Hst, Hr. subst.
  split; [|split; [|split]].
  - run_fetch. by rewrite decide_False by done.
  - intros k [Hk Hmax]. run_fetch. rewrite decide_False by done.
    by rewrite islice_stop_ok_true by done.
  - intros k Hk. by apply fetchmany_streaming_refused.
  - run_fetch. by rewrite decide_False by done.
Qed.

Lemma X14_streaming_switched_on_late_witness :
  let c1 := (set_stream_results true 100 (self buffered_finished)).2 in
  fetchall c1 = (Ok (OVal (VList sample_rows)), c1)
  ∧ fetchmany (Some 1) c1 = (Ok (OVal (VList [VTuple [VInt 1]])), c1)
  ∧ fetchmany (Some (-1)) c1 = (Raise ValueError, c1).
Proof.
  intros c1.
  destruct (X14_streaming_switched_on_late (self buffered_finished)
              sample_rows 100)
    as (_ & Hmany & Hout & Hall).
  - discriminate.
  - reflexivity.
  - split; [exact Hall|]. split.
    + apply (Hmany 1). by vm_compute.
    + apply Hout. left. lia.
Defined.

(** X15.  When streaming is switched off after a streaming query has
    left a lazy sequence as the row source, [fetchone] raises
    [AttributeError] and [fetchmany], with any size, raises [TypeError],
    both leaving the source as it is; [fetchall] returns the lazy
    sequence itself, unconsumed, and puts an empty list in its place. *)
Theorem X15_streaming_switched_off_late (c : Cursor) (it : Iter)
    (buffer : Z) (size : option Z) :
  _state c ≠ NONE →
  _rows c = OIter it →
  let c1 := (set_stream_results false buffer c).2 in
  fetchone c1 = (Raise AttributeError, c1)
  ∧ fetchmany size c1 = (Raise TypeError, c1)
  ∧ fetchall c1 = (Ok (OIter it), set_rows (OVal (VList [])) c1).
Proof.
  intros Hst Hr c1. subst c1. destruct c. cbn in Hst, Hr. subst.
  split; [|split].
  - run_fetch. by rewrite decide_False by done.
  - destruct size; run_fetch; by rewrite decide_False by done.
  - run_fetch. by rewrite decide_False by done.
Qed.

Lemma X15_streaming_switched_off_late_witness :
  let c1 := (set_stream_results false 0 (self streaming_finished)).2 in
  fetchone c1 = (Raise AttributeError, c1).
Proof.
  intros c1.
  refine (proj1 (X15_streaming_switched_off_late (self streaming_finished)
                   (mkIter sample_rows EndStop) 0 None _ _)).
  - discriminate.
  - reflexivity.
Defined.

(** ** X16: the cursors of a connection *)

Lemma cursor_by_ok (new_client : ClientFactory) (conn : Connection)
    (client : Client) :
  new_client (client_config conn) = Ok client →
  Connection_cursor_by new_client conn
  = (Ok (Cursor__init__ client),
     mkConnection (cursors conn ++ [Cursor__init__ client])%list (dsn conn)
       (user conn) (password conn) (host conn) (database conn)
       (connection_kwargs conn)).
Proof.
  intros Hnew. unfold Connection_cursor_by, _make_client_by. unfold_monad.
  simpl. by rewrite Hnew.
Qed.

Lemma cursor_by_raise (new_client : ClientFactory) (conn : Connection)
    (e : Exc) :
  new_client (client_config conn) = Raise e →
  Connection_cursor_by new_client conn = (Raise e, conn).
Proof.
  intros Hnew. unfold Connection_cursor_by, _make_client_by. unfold_monad.
  simpl. by rewrite Hnew.
Qed.

Lemma client_config_after_cursor (new_client : ClientFactory)
    (conn : Connection) :
  client_config (Connection_cursor_by new_client conn).2 = client_config conn.
Proof.
  destruct (new_client (client_config conn)) as [client|e] eqn:Hnew.
  - by rewrite (cursor_by_ok new_client conn client).
  - by rewrite (cursor_by_raise new_client conn e).
Qed.

Lemma client_config_issued (new_client : ClientFactory) (n : nat)
    (conn : Connection) :
  client_config (issue_cursors_by new_client n conn) = client_config conn.
Proof.
  revert conn. induction n as [|n IH]; intros conn; [done|].
  cbn [issue_cursors_by]. by rewrite IH, client_config_after_cursor.
Qed.

Lemma cursors_issued_ok (new_client : ClientFactory) (n : nat)
    (conn : Connection) (client : Client) :
  new_client (client_config conn) = Ok client →
  cursors (issue_cursors_by new_client n conn)
  = (cursors conn ++ replicate n (Cursor__init__ client))%list.
Proof.
  revert conn. induction n as [|n IH]; intros conn Hnew.
  - by rewrite app_nil_r.
  - cbn [issue_cursors_by replicate].
    rewrite IH by by rewrite client_config_after_cursor.
    rewrite (cursor_by_ok new_client conn client) by done.
    cbn [snd cursors]. by rewrite <- app_assoc.
Qed.

Lemma cursors_issued_raise (new_client : ClientFactory) (n : nat)
    (conn : Connection) (e : Exc) :
  new_client (client_config conn) = Raise e →
  issue_cursors_by new_client n conn = conn.
Proof.
  intros Hnew. induction n as [|n IH]; [done|].
  cbn [issue_cursors_by].
  by rewrite (cursor_by_raise new_client conn e).
Qed.

(** X16.  [cursor()] hands the constructor of the client the dsn when
    one was given and host, user, password, database and the extra
    options otherwise, and never touches these parameters.  When the
    constructor returns a client, [cursor()] returns a new cursor (state
    NONE, so that a fetch raises "No query yet") bound to that client
    and appends it to the list of the connection: called [n] times it
    appends [n] cursors, in order of issue and after those already
    there.  When the constructor raises, [cursor()] raises the same
    exception and the connection, its list of cursors included, is left
    as it was, however many times it is called.  For a constructor that
    accepts every configuration this is the [cursor()] of the
    statements about [Connection.close]. *)
Theorem X16_cursors_issued (new_client : ClientFactory) (conn : Connection)
    (n : nat) :
  let conn' := issue_cursors_by new_client n conn in
  client_config conn
  = match dsn conn with
    | Some d => FromUrl d
    | None => FromParams (host conn) (user conn) (password conn)
                (database conn) (connection_kwargs conn)
    end
  ∧ client_config conn' = client_config conn
  ∧ (∀ client, new_client (client_config conn) = Ok client →
       cursors conn'
       = (cursors conn ++ replicate n (Cursor__init__ client))%list
       ∧ (Connection_cursor_by new_client conn').1
         = Ok (Cursor__init__ client)
       ∧ cursors (Connection_cursor_by new_client conn').2
         = (cursors conn' ++ [Cursor__init__ client])%list
       ∧ (fetchone (Cursor__init__ client)).1 = Raise (Error "No query yet"))
  ∧ (∀ e, new_client (client_config conn) = Raise e →
       conn' = conn
       ∧ Connection_cursor_by new_client conn' = (Raise e, conn))
  ∧ Connection_cursor_by accepting_client conn = Connection_cursor conn.
Proof.
  intros conn'. subst conn'.
  split; [done|]. split; [apply client_config_issued|].
  split; [|split].
  - intros client Hnew.
    split; [by apply cursors_issued_ok|].
    assert (new_client (client_config (issue_cursors_by new_client n conn))
            = Ok client) as Hnew' by by rewrite client_config_issued.
    rewrite (cursor_by_ok _ _ client Hnew'). done.
  - intros e Hnew.
    rewrite (cursors_issued_raise new_client n conn e Hnew).
    split; [done|]. by apply cursor_by_raise.
  - unfold Connection_cursor_by, Connection_cursor, _make_client_by,
      _make_client, accepting_client, client_config.
    unfold_monad. simpl. by destruct (dsn conn).
Qed.

Lemma X16_cursors_issued_witness :
  let conn := connect None (Some "default") None (Some "localhost") None ∅ in
  let client := mkClient (FromParams (Some "localhost") (Some "default")
                            None None ∅) false 0 [] in
  cursors (issue_cursors_by accepting_client 2 conn)
  = [Cursor__init__ client; Cursor__init__ client]
  ∧ issue_cursors_by refusing_client 2 conn = conn
  ∧ Connection_cursor_by refusing_client conn = (Raise TypeError, conn).
Proof.
  intros conn client. split.
  - destruct (X16_cursors_issued accepting_client conn 2)
      as (_ & _ & Hok & _).
    destruct (Hok client eq_refl) as [Hcursors _]. exact Hcursors.
  - destruct (X16_cursors_issued refusing_client conn 2)
      as (_ & _ & _ & Hraise & _).
    destruct (Hraise TypeError eq_refl) as [Hsame Hcursor].
    split; [exact Hsame|]. by rewrite Hsame in Hcursor.
Defined.

(** ** X17: fetching after [close] *)

(** X17.  [close] does not stop fetching from rows that are already in
    memory.  On a cursor that has had a query and whose row buffer is a
    plain value (the list of a buffered query, not a lazy sequence that
    still reads from the client), every fetch after [close] returns or
    raises exactly what it would have without it, and leaves the same
    rows.  On a new cursor, [close] removes the "No query yet" error:
    [fetchone] and [fetchall] then return [None] and [fetchmany(k)]
    raises [TypeError]. *)
Theorem X17_fetch_after_close (f : FetchCall) (c : Cursor) (v : PyVal) :
  _state c ≠ NONE →
  _rows c = OVal v →
  (fetch f (Cursor_close c).2).1 = (fetch f c).1
  ∧ _rows (fetch f (Cursor_close c).2).2 = _rows (fetch f c).2
  ∧ ∀ client k,
      let fresh_closed := (Cursor_close (Cursor__init__ client)).2 in
      (fetchone fresh_closed).1 = Ok (OVal VNone)
      ∧ (fetchall fresh_closed).1 = Ok (OVal VNone)
      ∧ (fetchmany (Some k) fresh_closed).1 = Raise TypeError.
Proof.
  intros Hst Hrows. split; [|split].
  - destruct c as [cl st ? ? rows ? stream ? ? ? ? ?]. cbn in Hst, Hrows.
    destruct f as [|size|]; unfold fetch; run_fetch;
      rewrite decide_False by done;
      repeat case_match; simplify_eq/=; congruence.
  - destruct c as [cl st ? ? rows ? stream ? ? ? ? ?]. cbn in Hst, Hrows.
    destruct f as [|size|]; unfold fetch; run_fetch;
      rewrite decide_False by done;
      repeat case_match; simplify_eq/=; congruence.
  - intros client k fresh_closed. by repeat split.
Qed.

Lemma X17_fetch_after_close_witness :
  (fetch FetchOne (Cursor_close (self buffered_finished)).2).1
  = Ok (OVal (VTuple [VInt 1])).
Proof.
  refine (eq_trans (proj1 (X17_fetch_after_close FetchOne
                             (self buffered_finished) (VList sample_rows)
                             _ _)) _).
  - discriminate.
  - reflexivity.
  - reflexivity.
Defined.

(** ** X18: a query that raises leaves the result alone *)

Lemma process_response_raises (response : Obj) (many : bool) (c : Cursor)
    (e : Exc) :
  (_process_response response many c).1 = Raise e →
  (_process_response response many c).2 = c.
Proof.
  destruct c. unfold _process_response. unfold_monad. simpl.
  destruct many; [discriminate|]. simpl.
  repeat case_match; simplify_eq/=; done.
Qed.

Lemma after_prepare_raises srv op p wct many e kw (w1 : World) (x : Exc) :
  (after_prepare srv op p wct many e kw w1).1 = Raise x →
  ∃ k, self (after_prepare srv op p wct many e kw w1).2
       = set_client (Client_record k (_client (self w1))) (self w1).
Proof.
  unfold after_prepare. set (k := mkCall _ _ _ _ _ _ _). exists k.
  destruct (srv k) as [resp|y].
  - pose proof (process_response_raises resp many
      (set_client (Client_record k (_client (self w1))) (self w1))) as Hr.
    destruct (_process_response _ _ _) as [[[]|z] c3]; [discriminate|].
    cbn [fst snd self] in *. by eapply Hr.
  - by destruct y.
Qed.

(** X18.  A query that raises, for whatever reason (closed cursor,
    registered table, failure of the client, answer that cannot be
    unpacked) and in either mode, leaves columns, types, rows and the
    stored row count exactly as they were: the result of a query is
    installed only when the query succeeds. *)
Theorem X18_failed_query_keeps_result (q : QueryCall) (w : World) (x : Exc) :
  (query q w).1 = Raise x →
  let c' := self (query q w).2 in
  _columns c' = _columns (self w) ∧ _types c' = _types (self w)
  ∧ _rows c' = _rows (self w) ∧ _rowcount c' = _rowcount (self w)
  ∧ (_state (self w) ≠ CURSOR_CLOSED → _state c' = RUNNING).
Proof.
  intros Hraise c'. subst c'. destruct w as [h c]. cbn [self] in *.
  destruct (decide (_state c = CURSOR_CLOSED)) as [Hst|Hst].
  { destruct q; cbn [query] in *;
      by rewrite ?execute_closed, ?executemany_closed by done. }
  destruct (decide (_external_tables c = ∅)) as [Ht|Ht].
  2: { destruct q; cbn [query] in *;
         by rewrite ?execute_tables_raise, ?executemany_tables_raise by done. }
  destruct (prepare_succeeds h (set_state RUNNING c) Ht)
    as (e & kw & h1 & s & Hprep & _).
  destruct q as [srv op p|srv op p]; cbn [query] in *.
  - rewrite (execute_run srv op p h c e kw _ Hst Hprep) in Hraise |- *.
    by destruct (after_prepare_raises _ _ _ _ _ _ _ _ _ Hraise) as [k ->].
  - rewrite (executemany_run srv op p h c e kw _ Hst Hprep) in Hraise |- *.
    by destruct (after_prepare_raises _ _ _ _ _ _ _ _ _ Hraise) as [k ->].
Qed.

Lemma X18_failed_query_keeps_result_witness :
  _rows (self (query (ExecuteMany failing_server "INSERT INTO t VALUES"
                        (VList [])) buffered_finished).2)
  = OVal (VList sample_rows).
Proof.
  refine (proj1 (proj2 (proj2 (X18_failed_query_keeps_result
            (ExecuteMany failing_server "INSERT INTO t VALUES" (VList []))
            buffered_finished
            (OperationalError
               (DriverError "Code: 60. Table default.t does not exist"))
            _)))).
  reflexivity.
Defined.

(** ** X19: sizes that streaming [fetchmany] refuses *)

(** X19.  In streaming mode [fetchmany(k)] hands [k] to [islice] as it
    is: a [k] below 0 or above [sys.maxsize] raises [ValueError] before
    any row is pulled, whatever the row source is, and the cursor is
    unchanged; so does [fetchmany()] while [arraysize] holds such a
    value.  The rows are still there: a [fetchall] after the refused
    call returns all the rows the source had. *)
Theorem X19_streaming_fetchmany_refused (c : Cursor) (k : Z) :
  _state c ≠ NONE →
  _stream_results c = true →
  k < 0 ∨ sys_maxsize < k →
  fetchmany (Some k) c = (Raise ValueError, c)
  ∧ (arraysize c = k → fetchmany None c = (Raise ValueError, c))
  ∧ ∀ l, _rows c = OIter (mkIter l EndStop) →
      fetchall (fetchmany (Some k) c).2
      = (Ok (OVal (VList l)), set_rows (OIter exhausted) c).
Proof.
  intros Hst Hs Hk.
  pose proof (fetchmany_streaming_refused c k Hst Hs Hk) as Hmany.
  split; [exact Hmany|]. split.
  - intros Ha. by rewrite fetchmany_default, Ha.
  - intros l Hr. rewrite Hmany. cbn [snd].
    by apply fetchall_streaming.
Qed.

Lemma X19_streaming_fetchmany_refused_witness :
  fetchmany (Some (-3)) (self streaming_finished)
  = (Raise ValueError, self streaming_finished)
  ∧ fetchmany None (self streaming_finished)
    = (Raise ValueError, self streaming_finished)
  ∧ (fetchall (fetchmany (Some (-3)) (self streaming_finished)).2).1
    = Ok (OVal (VList sample_rows)).
Proof.
  destruct (X19_streaming_fetchmany_refused (self streaming_finished) (-3))
    as (Hmany & _ & Hall).
  - discriminate.
  - reflexivity.
  - left. lia.
  - destruct (X19_streaming_fetchmany_refused (self streaming_finished) (-1))
      as (_ & Hdefault & _).
    + discriminate.
    + reflexivity.
    + left. lia.
    + split; [exact Hmany|]. split; [by apply Hdefault|].
      by rewrite (Hall sample_rows).
Defined.
